(** * wearipedia: device facade (Fitbit Sense) and vendor client (WHOOP)

    A shallow embedding of
      - src/wearipedia/devices/fitbit/fitbit_sense.py  (class Fitbit_sense)
      - src/wearipedia/devices/whoop/whoop_user.py     (class WhoopUser)
    together with the statements of the specification that concern them.

    Python values are modelled as follows.  A [dict] with string keys is a
    [gmap string _]; a text that the code takes apart character by character
    (dates, timestamps) is a [list ascii]; an exception is a value of
    [exn] carried by the [Raise] constructor of [result]; code that mutates
    [self] or talks to the outside world runs in a state-and-exception
    monad whose state survives a raised exception, as in Python. *)

From Stdlib Require Import ZArith Ascii String List Lia Bool.
From stdpp Require Import base tactics option list gmap strings.

Open Scope Z_scope.

(** ** Exceptions and results *)

Inductive exn :=
| KeyError (key : string)
| AttributeError (attr : string)
| TypeError
| ValueError
| OverflowError
| AssertionError (msg : string)
| JSONDecodeError
| UnsupportedDataType (data_type : string)
| VendorError (code : Z).

Inductive result (A : Type) :=
| Ok (a : A)
| Raise (e : exn).
Arguments Ok {A} a.
Arguments Raise {A} e.

Definition rbind {A B} (r : result A) (k : A -> result B) : result B :=
  match r with
  | Ok a => k a
  | Raise e => Raise e
  end.


Declare Scope res_scope.
Delimit Scope res_scope with res.
Notation "x <- e ;; k" := (rbind e (fun x => k))
  (at level 100, e at next level, right associativity, only parsing) : res_scope.

(** [d[k]] on a Python dict. *)
Definition getitem {V} (d : gmap string V) (k : string) : result V :=
  match d !! k with
  | Some v => Ok v
  | None => Raise (KeyError k)
  end.

(** ** The proleptic Gregorian calendar of Python's [datetime] *)

Module PyDate.

Definition is_leap (y : Z) : bool :=
  (y mod 4 =? 0) && (negb (y mod 100 =? 0) || (y mod 400 =? 0)).

Definition days_in_month (y m : Z) : Z :=
  if (m =? 2) then (if is_leap y then 29 else 28)
  else if (m =? 4) || (m =? 6) || (m =? 9) || (m =? 11) then 30
  else 31.

(** Days in the year before the first day of month [m]. *)
Definition days_before_month (y m : Z) : Z :=
  fold_right Z.add 0
    (map (days_in_month y) (map Z.of_nat (seq 1 (Z.to_nat (m - 1))))).

Definition days_before_year (y : Z) : Z :=
  let p := y - 1 in p * 365 + p / 4 - p / 100 + p / 400.

(** [date(y, m, d).toordinal()]: 0001-01-01 is day 1. *)
Definition ymd2ord (y m d : Z) : Z :=
  days_before_year y + days_before_month y m + d.

Definition MINYEAR : Z := 1.
Definition MAXYEAR : Z := 9999.
Definition MAXORDINAL : Z := 3652059.

Definition valid_date (y m d : Z) : bool :=
  (MINYEAR <=? y) && (y <=? MAXYEAR) && (1 <=? m) && (m <=? 12)
  && (1 <=? d) && (d <=? days_in_month y m).

Definition valid_time (h mi s us : Z) : bool :=
  (0 <=? h) && (h <=? 23) && (0 <=? mi) && (mi <=? 59)
  && (0 <=? s) && (s <=? 59) && (0 <=? us) && (us <=? 999999).

(** A naive [datetime] is represented by its number of microseconds since
    0001-01-01T00:00:00.  Python orders, subtracts and shifts naive
    datetimes through exactly this number (ordinal day, then seconds, then
    microseconds). *)
Definition datetime := Z.

Definition US_PER_SECOND : Z := 1000000.
Definition US_PER_DAY : Z := 86400 * US_PER_SECOND.

Definition datetime_max : Z := MAXORDINAL * US_PER_DAY.

Definition mk_datetime (y m d h mi s us : Z) : result datetime :=
  if valid_date y m d && valid_time h mi s us
  then Ok ((ymd2ord y m d - 1) * US_PER_DAY
           + ((h * 60 + mi) * 60 + s) * US_PER_SECOND + us)
  else Raise ValueError.

(** [(a - b).days]: a [timedelta] is normalised with its seconds and
    microseconds non-negative, so [days] is the floor. *)
Definition sub_days (a b : datetime) : Z := (a - b) / US_PER_DAY.

(** [t + timedelta(days=n)]. *)
Definition add_days (t : datetime) (n : Z) : result datetime :=
  let r := t + n * US_PER_DAY in
  if (0 <=? r) && (r <? datetime_max) then Ok r else Raise OverflowError.

(** The year that contains the 0-based day number [n], found by scanning:
    [fuel] bounds the distance between the estimate and the answer. *)
Fixpoint year_of_day (fuel : nat) (y n : Z) : Z :=
  match fuel with
  | O => y
  | S f =>
      if n <? days_before_year y then year_of_day f (y - 1) n
      else if days_before_year (y + 1) <=? n then year_of_day f (y + 1) n
      else y
  end.

Fixpoint month_of_day (fuel : nat) (y m n : Z) : Z * Z :=
  match fuel with
  | O => (m, n)
  | S f =>
      if n <? days_in_month y m then (m, n)
      else month_of_day f y (m + 1) (n - days_in_month y m)
  end.

(** Inverse of [ymd2ord] on 0-based day numbers. *)
Definition ord2ymd (n : Z) : Z * Z * Z :=
  let y := year_of_day 4 (n * 400 / 146097 + 1) n in
  let '(m, d) := month_of_day 12 y 1 (n - days_before_year y) in
  (y, m, d + 1).

End PyDate.

(** ** Text: Python [str] values that the code takes apart *)

Module Text.

Abbreviation text := (list ascii).

Definition of_string (s : string) : text := list_ascii_of_string s.

Definition code (c : ascii) : Z := Z.of_N (N_of_ascii c).

(** [[0-9]] of the [re] module. *)
Definition is_digit (c : ascii) : bool := (48 <=? code c) && (code c <=? 57).

Definition digit_val (c : ascii) : Z := code c - 48.

Definition digit_char (d : Z) : ascii := ascii_of_N (Z.to_N (48 + d)).

(** [int(s)] for a text of ASCII decimal digits (most significant first). *)
Definition int_of_digits (s : text) : Z :=
  fold_left (fun acc c => 10 * acc + digit_val c) s 0.

(** The decimal digits of [n], zero-padded on the left to [width]. *)
Fixpoint zpad (width : nat) (n : Z) : text :=
  match width with
  | O => []
  | S w => zpad w (n / 10) ++ [digit_char (n mod 10)]
  end.

(** [s.split(".")[0]]: the text before the first occurrence of [sep]. *)
Fixpoint before_first (sep : ascii) (s : text) : text :=
  match s with
  | [] => []
  | c :: r => if Ascii.eqb c sep then [] else c :: before_first sep r
  end.

(** [s.ljust(n, fill)]. *)
Definition ljust (n : nat) (fill : ascii) (s : text) : text :=
  s ++ repeat fill (n - length s).

End Text.

(** ** [datetime.strptime] and [strftime] for the formats the code uses

    [_strptime] compiles the format into a regular expression, takes the
    first match of a prefix of the text in the priority order of the
    alternatives, rejects the text when the match does not reach its end
    ("unconverted data remains"), and builds the datetime, which rejects
    values that are not a date or a time.  Every rejection is a
    [ValueError].  The texts are ASCII: [\d] is a decimal digit. *)

Module Strptime.
Import PyDate Text.

(** A backtracking matcher: all ways to match a prefix, best first. *)
Definition rx (A : Type) := text -> list (A * text).

Definition rx_ret {A} (a : A) : rx A := fun s => [(a, s)].

Definition rx_bind {A B} (p : rx A) (k : A -> rx B) : rx B :=
  fun s => flat_map (fun ar => k (fst ar) (snd ar)) (p s).

Definition rx_alt {A} (p q : rx A) : rx A := fun s => p s ++ q s.

(** One digit between [lo] and [hi]. *)
Definition rx_digit (lo hi : Z) : rx Z :=
  fun s =>
    match s with
    | c :: r =>
        if is_digit c && (lo <=? digit_val c) && (digit_val c <=? hi)
        then [(digit_val c, r)] else []
    | [] => []
    end.

(** One character out of [cs]. *)
Definition rx_lit (cs : list ascii) : rx unit :=
  fun s =>
    match s with
    | c :: r => if existsb (Ascii.eqb c) cs then [(tt, r)] else []
    | [] => []
    end.

Declare Scope rx_scope.
Delimit Scope rx_scope with rx.
Notation "x <- p ;; k" := (rx_bind p (fun x => k))
  (at level 100, p at next level, right associativity, only parsing) : rx_scope.
Notation "p ;;; k" := (rx_bind p (fun _ => k))
  (at level 100, right associativity, only parsing) : rx_scope.

(** Two digits [a] in [lo1..hi1] and [b] in [lo2..hi2], read as [10a+b]. *)
Definition rx_two (lo1 hi1 lo2 hi2 : Z) : rx Z :=
  (a <- rx_digit lo1 hi1 ;; b <- rx_digit lo2 hi2 ;; rx_ret (10 * a + b))%rx.

(** [%Y]: [\d\d\d\d]. *)
Definition rx_Y : rx Z :=
  (a <- rx_digit 0 9 ;; b <- rx_digit 0 9 ;; c <- rx_digit 0 9 ;;
   d <- rx_digit 0 9 ;; rx_ret (1000 * a + 100 * b + 10 * c + d))%rx.

(** [%m]: [1[0-2]|0[1-9]|[1-9]]. *)
Definition rx_m : rx Z :=
  rx_alt (rx_two 1 1 0 2) (rx_alt (rx_two 0 0 1 9) (rx_digit 1 9)).

(** [%d]: [3[01]|[12]\d|0[1-9]|[1-9]| [1-9]]. *)
Definition rx_d : rx Z :=
  rx_alt (rx_two 3 3 0 1)
    (rx_alt (rx_two 1 2 0 9)
       (rx_alt (rx_two 0 0 1 9)
          (rx_alt (rx_digit 1 9)
             (rx_lit [" "%char] ;;; rx_digit 1 9)%rx))).

(** [%H]: [2[0-3]|[0-1]\d|\d]. *)
Definition rx_H : rx Z :=
  rx_alt (rx_two 2 2 0 3) (rx_alt (rx_two 0 1 0 9) (rx_digit 0 9)).

(** [%M]: [[0-5]\d|\d]. *)
Definition rx_M : rx Z := rx_alt (rx_two 0 5 0 9) (rx_digit 0 9).

(** [%S]: [6[0-1]|[0-5]\d|\d]. *)
Definition rx_S : rx Z :=
  rx_alt (rx_two 6 6 0 1) (rx_alt (rx_two 0 5 0 9) (rx_digit 0 9)).

(** The first match must end where the text ends. *)
Definition whole_match {A} (p : rx A) (s : text) : result A :=
  match p s with
  | (a, []) :: _ => Ok a
  | _ => Raise ValueError
  end.

(** [datetime.strptime(s, "%Y-%m-%d")]. *)
Definition strptime_ymd (s : text) : result datetime :=
  (f <- whole_match
          (y <- rx_Y ;; rx_lit ["-"%char] ;;; m <- rx_m ;;
           rx_lit ["-"%char] ;;; d <- rx_d ;; rx_ret (y, m, d))%rx s ;;
   let '(y, m, d) := f in mk_datetime y m d 0 0 0 0)%res.

(** [datetime.strptime(s, "%Y-%m-%dT%H:%M:%S")]; the expression is compiled
    with [IGNORECASE], so the literal [T] also matches [t]. *)
Definition strptime_ymdThms (s : text) : result datetime :=
  (f <- whole_match
          (y <- rx_Y ;; rx_lit ["-"%char] ;;; m <- rx_m ;;
           rx_lit ["-"%char] ;;; d <- rx_d ;;
           rx_lit ["T"%char; "t"%char] ;;; h <- rx_H ;;
           rx_lit [":"%char] ;;; mi <- rx_M ;;
           rx_lit [":"%char] ;;; sec <- rx_S ;;
           rx_ret (y, m, d, h, mi, sec))%rx s ;;
   let '(y, m, d, h, mi, sec) := f in mk_datetime y m d h mi sec 0)%res.

(** [t.strftime("%Y-%m-%dT%H:%M:%S.000Z")]; years are printed on four
    digits. *)
Definition strftime_iso_000Z (t : datetime) : text :=
  let '(y, m, d) := ord2ymd (t / US_PER_DAY) in
  let secs := (t mod US_PER_DAY) / US_PER_SECOND in
  zpad 4 y ++ "-"%char :: zpad 2 m ++ "-"%char :: zpad 2 d ++ "T"%char ::
  zpad 2 (secs / 3600) ++ ":"%char :: zpad 2 (secs / 60 mod 60) ++ ":"%char ::
  zpad 2 (secs mod 60) ++ of_string ".000Z".

End Strptime.

(** ** The device facade: [Fitbit_sense] *)

Module Fitbit.
Import PyDate Text Strptime.

(** Scalars held by parameter dicts and data records. *)
Inductive pyval :=
| VNone
| VInt (n : Z)
| VStr (s : string).

#[global] Instance pyval_eq_dec : EqDecision pyval.
Proof. solve_decision. Defined.

(** A data record maps field names to scalars; a series is a list of them;
    [create_syn_data] returns one series per data type. *)
Abbreviation record := (gmap string pyval).
Abbreviation series := (list (gmap string pyval)).
Abbreviation syn_data := (gmap string (list (gmap string pyval))).

(** [datetime.strptime(x, "%Y-%m-%d")] on a Python value. *)
Definition date_str_to_obj (x : pyval) : result datetime :=
  match x with
  | VStr s => strptime_ymd (of_string s)
  | _ => Raise TypeError
  end.

(** An error of an external collaborator, kept apart from the facade's
    own exceptions. *)
Definition vendor {A} (r : Z + A) : result A :=
  match r with
  | inl c => Raise (VendorError c)
  | inr a => Ok a
  end.

(** The collaborators named by the imports of fitbit_sense.py whose code is
    outside the facade: the global random generators and their seeding
    ([utils.seed_everything]), the generator ([fitbit_sense_gen]), the
    vendor client ([fitbit_sense_fetch], [fitbit_authenticate]). *)
Class Collaborators := {
  rng : Type;
  seed_everything : pyval -> rng;
  create_syn_data : pyval -> pyval -> rng -> (Z + syn_data) * rng;
  user_t : Type;
  fetch_real_data : string -> user_t -> pyval -> pyval -> Z + series;
}.

Section Device.
Context `{Collaborators}.

(** The attributes of a device object. *)
Record device := Device {
  valid_data_types : list string;
  init_params : gmap string pyval;
  authenticated : bool;
  user : option user_t;
  synthetic_has_been_generated : bool;
  attrs : gmap string (list (gmap string pyval));
}.

Definition set_attr (name : string) (v : series) (self : device) : device :=
  Device (valid_data_types self) (init_params self) (authenticated self)
    (user self) (synthetic_has_been_generated self) (<[name := v]> (attrs self)).

Definition set_generated (b : bool) (self : device) : device :=
  Device (valid_data_types self) (init_params self) (authenticated self)
    (user self) b (attrs self).

Definition getattr (self : device) (name : string) : result series :=
  match attrs self !! name with
  | Some v => Ok v
  | None => Raise (AttributeError name)
  end.

(** One call of [fetch_real_data], as the vendor client sees it. *)
Record fetch_call := FetchCall {
  fc_data_type : string;
  fc_user : user_t;
  fc_start_date : pyval;
  fc_end_date : pyval;
}.

(** What lies outside the device: the state of the global random
    generators and the calls made to the vendor so far (oldest first). *)
Record world := World {
  rng_state : rng;
  fetch_log : list fetch_call;
}.

(** Code that may mutate [self] and the world, and may raise. *)
Definition M (A : Type) := device -> world -> result A * device * world.

Definition ret {A} (a : A) : M A := fun self w => (Ok a, self, w).

Definition raise {A} (e : exn) : M A := fun self w => (Raise e, self, w).

Definition bind {A B} (m : M A) (k : A -> M B) : M B :=
  fun self w =>
    match m self w with
    | (Ok a, self', w') => k a self' w'
    | (Raise e, self', w') => (Raise e, self', w')
    end.

Definition lift {A} (r : result A) : M A := fun self w => (r, self, w).

Definition get_self : M device := fun self w => (Ok self, self, w).

Definition modify_self (f : device -> device) : M unit :=
  fun self w => (Ok tt, f self, w).

Notation "x <- e ;; k" := (bind e (fun x => k))
  (at level 100, e at next level, right associativity, only parsing).
Notation "e ;;; k" := (bind e (fun _ => k))
  (at level 100, right associativity, only parsing).

(** The ten data types declared by [Fitbit_sense.__init__]. *)
Definition data_types : list string :=
  ["sleep"; "steps"; "minutesVeryActive"; "minutesLightlyActive";
   "minutesFairlyActive"; "distance"; "minutesSedentary"; "heart_rate_day";
   "hrv"; "distance_day"]%string.

(** The third argument of [_initialize_device_params] in [__init__]. *)
Definition default_init_params : gmap string pyval :=
  <["seed" := VInt 0]> (<["synthetic_start_date" := VStr "2022-03-01"]>
    (<["synthetic_end_date" := VStr "2022-06-17"]> ∅)).

Definition _default_params : gmap string pyval :=
  <["start_date" := VStr "2022-04-24"]> (<["end_date" := VStr "2022-04-28"]> ∅).

(** [_filter_synthetic]: the two indices are computed (every lookup and
    every [strptime] may raise) and the series is returned as it came. *)
Definition _filter_synthetic (self : device) (data : series)
    (data_type : string) (params : gmap string pyval) : result series :=
  (s0 <- getitem (init_params self) "synthetic_start_date" ;;
   synthetic_start <- date_str_to_obj s0 ;;
   p1 <- getitem params "start_date" ;;
   d1 <- date_str_to_obj p1 ;;
   let start_idx := sub_days d1 synthetic_start in
   p2 <- getitem params "end_date" ;;
   d2 <- date_str_to_obj p2 ;;
   let end_idx := sub_days d2 synthetic_start in
   Ok data)%res.

(** The indices that [_filter_synthetic] computes and drops. *)
Definition filter_indices (self : device) (params : gmap string pyval)
    : result (Z * Z) :=
  (s0 <- getitem (init_params self) "synthetic_start_date" ;;
   synthetic_start <- date_str_to_obj s0 ;;
   p1 <- getitem params "start_date" ;;
   d1 <- date_str_to_obj p1 ;;
   p2 <- getitem params "end_date" ;;
   d2 <- date_str_to_obj p2 ;;
   Ok (sub_days d1 synthetic_start, sub_days d2 synthetic_start))%res.

(** [_get_real]: the arguments of [fetch_real_data] are evaluated from left
    to right, then the call is made; [params] is not read. *)
Definition _get_real (data_type : string) (params : gmap string pyval)
    : M series :=
  self <- get_self ;;
  u <- lift (match user self with
             | Some u => Ok u
             | None => Raise (AttributeError "user")
             end) ;;
  start_date <- lift (getitem (init_params self) "start_date") ;;
  end_date <- lift (getitem (init_params self) "end_date") ;;
  fun self w =>
    (vendor (fetch_real_data data_type u start_date end_date), self,
     World (rng_state w)
       (fetch_log w ++ [FetchCall data_type u start_date end_date])).

(** [self.<name> = syn_data["<name>"]]. *)
Definition store (syn : syn_data) (name : string) : M unit :=
  v <- lift (getitem syn name) ;; modify_self (set_attr name v).

(** [_gen_synthetic]: the generator draws from the global random
    generators; its ten series are stored on the device in this order. *)
Definition _gen_synthetic : M unit :=
  self <- get_self ;;
  s <- lift (getitem (init_params self) "synthetic_start_date") ;;
  e <- lift (getitem (init_params self) "synthetic_end_date") ;;
  syn <- (fun self w =>
            let '(r, g) := create_syn_data s e (rng_state w) in
            (vendor r, self, World g (fetch_log w))) ;;
  store syn "sleep" ;;;
  store syn "steps" ;;;
  store syn "minutesVeryActive" ;;;
  store syn "minutesFairlyActive" ;;;
  store syn "minutesLightlyActive" ;;;
  store syn "distance" ;;;
  store syn "minutesSedentary" ;;;
  store syn "heart_rate_day" ;;;
  store syn "hrv" ;;;
  store syn "distance_day".

(** [_authenticate]: [u] is what [fitbit_token] returns for the client id
    and secret typed at the prompts. *)
Definition _authenticate (u : user_t) : M unit :=
  modify_self (fun self =>
    Device (valid_data_types self) (init_params self) (authenticated self)
      (Some u) (synthetic_has_been_generated self) (attrs self)).

(** Modelled from the spec: [BaseDevice._initialize_device_params]
    (devices/device.py is not among the sources).  It records the supported
    data types and the configuration, where a key missing from [params]
    takes its default, and seeds the random generators: synthetic
    generation is "seeded once at construction". *)
Definition _initialize_device_params (types : list string)
    (params defaults : gmap string pyval) (w : world) : result device * world :=
  let init := params ∪ defaults in
  match getitem init "seed" with
  | Ok seed =>
      (Ok (Device types init false None false ∅),
       World (seed_everything seed) (fetch_log w))
  | Raise e => (Raise e, w)
  end.

(** [Fitbit_sense.__init__]. *)
Definition Fitbit_sense (seed synthetic_start_date synthetic_end_date : pyval)
    (w : world) : result device * world :=
  let params : gmap string pyval :=
    <["seed" := seed]> (<["synthetic_start_date" := synthetic_start_date]>
      (<["synthetic_end_date" := synthetic_end_date]> ∅)) in
  _initialize_device_params data_types params default_init_params w.

(** Modelled from the spec: the step of [BaseDevice] that puts a device in
    "real" mode once [_authenticate] has run. *)
Definition authenticate (u : user_t) : M unit :=
  _authenticate u ;;;
  modify_self (fun self =>
    Device (valid_data_types self) (init_params self) true
      (user self) (synthetic_has_been_generated self) (attrs self)).

(** Modelled from the spec: [BaseDevice.get_data].  It "validates
    data_type against the device's declared supported set, fails with an
    UnsupportedDataType error otherwise"; the caller's window overrides the
    default one key by key; in real mode it "delegates to the vendor
    client"; in synthetic mode it "triggers (or reuses) synthetic
    generation", "then filters the full synthetic series down to the
    requested window". *)
Definition get_data (data_type : string) (params : option (gmap string pyval))
    : M series :=
  self <- get_self ;;
  if bool_decide (data_type ∈ valid_data_types self) then
    let params :=
      match params with
      | None => _default_params
      | Some p => p ∪ _default_params
      end in
    if authenticated self then _get_real data_type params
    else
      (if synthetic_has_been_generated self then ret tt
       else (_gen_synthetic ;;; modify_self (set_generated true))) ;;;
      self <- get_self ;;
      data <- lift (getattr self data_type) ;;
      lift (_filter_synthetic self data data_type params)
  else raise (UnsupportedDataType data_type).

End Device.

End Fitbit.

(** ** The vendor client: [WhoopUser] *)

Module Whoop.
Import PyDate Text Strptime.

(** A decoded JSON document. *)
#[local] Unset Elimination Schemes.
Inductive json :=
| JNull
| JBool (b : bool)
| JInt (n : Z)
| JFloat (mantissa exponent : Z)
| JStr (s : string)
| JArr (items : list json)
| JObj (fields : gmap string json).
#[local] Set Elimination Schemes.

(** [j[key]] for a string key. *)
Definition subscript (j : json) (key : string) : result json :=
  match j with
  | JObj fields => getitem fields key
  | _ => Raise TypeError
  end.

(** An f-string kept as its pieces: literal text and formatted values. *)
Inductive piece :=
| Lit (s : string)
| Fmt (v : json).

Abbreviation fstr := (list piece).

Inductive request :=
| POST (url : fstr) (json_body : json)
| GET (url : fstr) (params : option (gmap string string))
      (headers : gmap string (list piece)).

Record response := Response {
  status_code : Z;
  body : option json;
}.

(** [response.json()]. *)
Definition json_of (r : response) : result json :=
  match body r with
  | Some j => Ok j
  | None => Raise JSONDecodeError
  end.

(** A row of the heart-rate dataframe. *)
Record hr_row (timestamp : Type) := HrRow {
  heart_rate : json;
  timestamp_of : timestamp;
}.
Arguments HrRow {timestamp} _ _.

(** What the client meets outside: the vendor's server, which answers a
    request knowing the requests made before it; the clock behind
    [datetime.now()], whose [k]-th reading is [clock k]; the conversion of
    a tick's Unix time to a local timestamp (floating point and time-zone
    tables). *)
Class Outside := {
  server : list request -> request -> response;
  clock : nat -> datetime;
  timestamp : Type;
  tick_time_to_local_timezone : string -> json -> result timestamp;
}.

(** The attributes of a [WhoopUser]; [None] is an attribute not yet set. *)
Record WhoopUser := User {
  BASE_URL : option fstr;
  AUTH_URL : option fstr;
  token : option json;
  user_id : option json;
  header : option (gmap string (list piece));
  CYCLES_URL : option fstr;
  HEART_RATE_URL : option fstr;
  HEALTH_METRICS_URL : option fstr;
  SEED : option Z;
}.

Definition blank : WhoopUser :=
  User None None None None None None None None None.

Definition set_BASE_URL v (u : WhoopUser) :=
  User (Some v) (AUTH_URL u) (token u) (user_id u) (header u) (CYCLES_URL u)
    (HEART_RATE_URL u) (HEALTH_METRICS_URL u) (SEED u).
Definition set_AUTH_URL v (u : WhoopUser) :=
  User (BASE_URL u) (Some v) (token u) (user_id u) (header u) (CYCLES_URL u)
    (HEART_RATE_URL u) (HEALTH_METRICS_URL u) (SEED u).
Definition set_token v (u : WhoopUser) :=
  User (BASE_URL u) (AUTH_URL u) (Some v) (user_id u) (header u) (CYCLES_URL u)
    (HEART_RATE_URL u) (HEALTH_METRICS_URL u) (SEED u).
Definition set_user_id v (u : WhoopUser) :=
  User (BASE_URL u) (AUTH_URL u) (token u) (Some v) (header u) (CYCLES_URL u)
    (HEART_RATE_URL u) (HEALTH_METRICS_URL u) (SEED u).
Definition set_header v (u : WhoopUser) :=
  User (BASE_URL u) (AUTH_URL u) (token u) (user_id u) (Some v) (CYCLES_URL u)
    (HEART_RATE_URL u) (HEALTH_METRICS_URL u) (SEED u).
Definition set_CYCLES_URL v (u : WhoopUser) :=
  User (BASE_URL u) (AUTH_URL u) (token u) (user_id u) (header u) (Some v)
    (HEART_RATE_URL u) (HEALTH_METRICS_URL u) (SEED u).
Definition set_HEART_RATE_URL v (u : WhoopUser) :=
  User (BASE_URL u) (AUTH_URL u) (token u) (user_id u) (header u) (CYCLES_URL u)
    (Some v) (HEALTH_METRICS_URL u) (SEED u).
Definition set_HEALTH_METRICS_URL v (u : WhoopUser) :=
  User (BASE_URL u) (AUTH_URL u) (token u) (user_id u) (header u) (CYCLES_URL u)
    (HEART_RATE_URL u) (Some v) (SEED u).
Definition set_SEED v (u : WhoopUser) :=
  User (BASE_URL u) (AUTH_URL u) (token u) (user_id u) (header u) (CYCLES_URL u)
    (HEART_RATE_URL u) (HEALTH_METRICS_URL u) (Some v).


Definition default_params_hr : gmap string string :=
  <["start" := "2022-04-24T00:00:00.000Z"]>
    (<["end" := "2022-04-28T00:00:00.000Z"]> ∅).

Section Client.
Context `{Outside}.

(** The state a method runs in: the object, the requests sent so far
    (oldest first) and the number of clock readings taken. *)
Record state := State {
  self : WhoopUser;
  sent : list request;
  clock_reads : nat;
}.

Definition W (A : Type) := state -> result A * state.

Definition ret {A} (a : A) : W A := fun st => (Ok a, st).

Definition raise {A} (e : exn) : W A := fun st => (Raise e, st).

Definition bind {A B} (m : W A) (k : A -> W B) : W B :=
  fun st =>
    match m st with
    | (Ok a, st') => k a st'
    | (Raise e, st') => (Raise e, st')
    end.

Definition lift {A} (r : result A) : W A := fun st => (r, st).

Notation "x <- e ;; k" := (bind e (fun x => k))
  (at level 100, e at next level, right associativity, only parsing).
Notation "e ;;; k" := (bind e (fun _ => k))
  (at level 100, right associativity, only parsing).

(** [self.<name>]. *)
Definition attr {A} (name : string) (field : WhoopUser -> option A) : W A :=
  fun st =>
    match field (self st) with
    | Some v => (Ok v, st)
    | None => (Raise (AttributeError name), st)
    end.

(** [self.<name> = v]. *)
Definition assign (set : WhoopUser -> WhoopUser) : W unit :=
  fun st => (Ok tt, State (set (self st)) (sent st) (clock_reads st)).

(** [requests.post] and [requests.get]. *)
Definition send (r : request) : W response :=
  fun st => (Ok (server (sent st) r),
             State (self st) (sent st ++ [r]) (clock_reads st)).

(** [datetime.datetime.now()]. *)
Definition now : W datetime :=
  fun st => (Ok (clock (clock_reads st)),
             State (self st) (sent st) (S (clock_reads st))).

Definition login_form (email password : string) : json :=
  JObj (<["grant_type" := JStr "password"]>
         (<["issueRefresh" := JBool false]>
           (<["password" := JStr password]>
             (<["username" := JStr email]> ∅)))).

(** [login]. *)
Definition login (email password : string) : W unit :=
  if (String.length email =? 0)%nat then
    assign (set_token (JStr "")) ;;;
    assign (set_user_id (JStr ""))
  else
    url <- attr "AUTH_URL" AUTH_URL ;;
    r <- send (POST url (login_form email password)) ;;
    if negb (status_code r =? 200) then
      raise (AssertionError "Credentials rejected")
    else
      login_data <- lift (json_of r) ;;
      tok <- lift (subscript login_data "access_token") ;;
      assign (set_token tok) ;;;
      u <- lift (subscript login_data "user") ;;
      uid <- lift (subscript u "id") ;;
      assign (set_user_id uid).

(** [WhoopUser.__init__], run on a blank object. *)
Definition init (email password : string) : W unit :=
  let base := [Lit "https://api-7.whoop.com/"] in
  assign (set_BASE_URL base) ;;;
  b <- attr "BASE_URL" BASE_URL ;;
  assign (set_AUTH_URL (b ++ [Lit "oauth/token"])) ;;;
  login email password ;;;
  tok <- attr "token" token ;;
  assign (set_header (<["Authorization" := [Lit "bearer "; Fmt tok]]> ∅)) ;;;
  uid <- attr "user_id" user_id ;;
  assign (set_CYCLES_URL [Lit "users/"; Fmt uid; Lit "/cycles"]) ;;;
  b <- attr "BASE_URL" BASE_URL ;;
  uid <- attr "user_id" user_id ;;
  assign (set_HEART_RATE_URL
            (b ++ [Lit "users/"; Fmt uid; Lit "/metrics/heart_rate"])) ;;;
  assign (set_HEALTH_METRICS_URL
            [Lit "https://api.prod.whoop.com/coaching-service/v1/health/metrics"]) ;;;
  assign (set_SEED 1).



(** [get_heart_rate_json]. *)
Definition get_heart_rate_json (params : gmap string string) : W json :=
  url <- attr "HEART_RATE_URL" HEART_RATE_URL ;;
  h <- attr "header" header ;;
  r <- send (GET url (Some params) h) ;;
  lift (json_of r).


(** [datetime.strptime(params[key].split(".")[0], "%Y-%m-%dT%H:%M:%S")]. *)
Definition parse_bound (params : gmap string string) (key : string)
    : result datetime :=
  (v <- getitem params key ;;
   strptime_ymdThms (before_first "."%char (of_string v)))%res.

(** [ceil(days / 7)]: the quotient is a float, exact enough for every
    difference of two datetimes. *)
Definition ceil_div7 (days : Z) : Z := - ((- days) / 7).

(** The parameters of segment [i]. *)
Definition segment (start : datetime) (i : Z)
    : result (gmap string string) :=
  (segment_start <- add_days start (7 * i) ;;
   segment_end <- add_days start (7 * (i + 1)) ;;
   Ok (<["start" := string_of_list_ascii (strftime_iso_000Z segment_start)]>
        (<["end" := string_of_list_ascii (strftime_iso_000Z segment_end)]>
           (∅ : gmap string string))))%res.

(** The body of the [for] loop, for [i] over a [range]. *)
Fixpoint segments (start : datetime) (range : list Z)
    : result (list (gmap string string)) :=
  match range with
  | [] => Ok []
  | i :: rest =>
      (p <- segment start i ;;
       ps <- segments start rest ;;
       Ok (p :: ps))%res
  end.

(** [range(n)]. *)
Definition range (n : Z) : list Z := map Z.of_nat (seq 0 (Z.to_nat n)).

(** [split_into_weeklong_params]. *)
Definition split_into_weeklong_params (params : gmap string string)
    : W (list (gmap string string)) :=
  end0 <- lift (parse_bound params "end") ;;
  start <- lift (parse_bound params "start") ;;
  n1 <- now ;;
  end_ <- (if n1 <? end0 then now else ret end0) ;;
  lift (segments start (range (ceil_div7 (sub_days end_ start)))).

(** [self.get_heart_rate_json(p)["values"]], which must be a list to be
    added to [data]. *)
Definition heart_rate_values (p : gmap string string) : W (list json) :=
  j <- get_heart_rate_json p ;;
  v <- lift (subscript j "values") ;;
  match v with
  | JArr items => ret items
  | _ => raise TypeError
  end.

(** [for p in split_params: data = data + ...]. *)
Fixpoint fetch_segments (split_params : list (gmap string string))
    (data : list json) : W (list json) :=
  match split_params with
  | [] => ret data
  | p :: rest =>
      v <- heart_rate_values p ;;
      fetch_segments rest (data ++ v)
  end.

Definition tick_row (timezone : string) (tick : json)
    : result (hr_row timestamp) :=
  (hr <- subscript tick "data" ;;
   t <- subscript tick "time" ;;
   ts <- tick_time_to_local_timezone timezone t ;;
   Ok (HrRow hr ts))%res.

(** [for tick in data: df_dict_list.append(row_dict)]. *)
Fixpoint tick_rows (timezone : string) (data : list json)
    : result (list (hr_row timestamp)) :=
  match data with
  | [] => Ok []
  | tick :: rest =>
      (row <- tick_row timezone tick ;;
       rows <- tick_rows timezone rest ;;
       Ok (row :: rows))%res
  end.

(** [get_heart_rate_df]; the dataframe is the list of its rows, and
    [verbose] only wraps the loop in a progress bar. *)
Definition get_heart_rate_df (params : gmap string string)
    (timezone : string) (verbose : bool) : W (list (hr_row timestamp)) :=
  split_params <- split_into_weeklong_params params ;;
  data <- fetch_segments split_params [] ;;
  lift (tick_rows timezone data).

End Client.

(** *** [convert_whoop_str_to_datetime] *)

(** [re.sub(pattern, repl, s)] for a pattern that matches no empty text:
    [match_at] gives, for a match at the head of the text, its group and its
    length; matches are replaced from left to right and the scan resumes
    after each match ([skip] counts the characters of the current match
    still to pass). *)
Fixpoint re_sub (match_at : text -> option (text * nat))
    (repl : text -> text) (skip : nat) (s : text) : text :=
  match s with
  | [] => []
  | c :: r =>
      match skip with
      | S k => re_sub match_at repl k r
      | O =>
          match match_at s with
          | Some (g, n) => repl g ++ re_sub match_at repl (n - 1) r
          | None => c :: re_sub match_at repl 0 r
          end
      end
  end.

(** [([0-9]{k})\+] at the head of [r]. *)
Definition digits_then_plus (k : nat) (r : text) : option (text * nat) :=
  let g := take k r in
  if (length g =? k)%nat && forallb is_digit g then
    match drop k r with
    | c :: _ => if Ascii.eqb c "+" then Some (g, S (S k)) else None
    | [] => None
    end
  else None.

(** [\.([0-9]{0,3})\+] at the head of the text; the repetition is greedy. *)
Definition match_fraction (s : text) : option (text * nat) :=
  match s with
  | c :: r =>
      if Ascii.eqb c "." then
        match digits_then_plus 3 r with
        | Some m => Some m
        | None =>
            match digits_then_plus 2 r with
            | Some m => Some m
            | None =>
                match digits_then_plus 1 r with
                | Some m => Some m
                | None => digits_then_plus 0 r
                end
            end
        end
      else None
  | [] => None
  end.

(** [zero_pad_microseconds]. *)
Definition zero_pad_microseconds (group1 : text) : text :=
  "."%char :: ljust 3 "0" group1 ++ ["+"%char].

(** [([\+|\-][0-9]{2}:[0-9]{2})] at the head of the text. *)
Definition match_tz (s : text) : option (text * nat) :=
  match s with
  | c :: h1 :: h2 :: k :: m1 :: m2 :: _ =>
      if (Ascii.eqb c "+" || Ascii.eqb c "|" || Ascii.eqb c "-")
         && is_digit h1 && is_digit h2 && Ascii.eqb k ":"
         && is_digit m1 && is_digit m2
      then Some ([c; h1; h2; k; m1; m2], 6%nat)
      else None
  | _ => None
  end.

(** [correct_tz]: [f"{tz[:3]}:{tz[3:]}"]. *)
Definition correct_tz (tz : text) (tz_match : text) : text :=
  take 3 tz ++ ":"%char :: drop 3 tz.

(** An aware or naive datetime as [fromisoformat] builds it; the offset is
    in microseconds. *)
Record iso_datetime := IsoDatetime {
  year : Z; month : Z; day : Z;
  hour : Z; minute : Z; second : Z; microsecond : Z;
  utcoffset : option Z;
}.

(** [int] of a text that must consist of ASCII digits. *)
Definition digits (s : text) : result Z :=
  if forallb is_digit s && negb (length s =? 0)%nat
  then Ok (int_of_digits s) else Raise ValueError.

(** [_parse_isoformat_date] on the first ten characters. *)
Definition parse_isoformat_date (d : text) : result (Z * Z * Z) :=
  match d with
  | [y1; y2; y3; y4; s1; m1; m2; s2; d1; d2] =>
      (y <- digits [y1; y2; y3; y4] ;;
       if negb (Ascii.eqb s1 "-") then Raise ValueError else
       m <- digits [m1; m2] ;;
       if negb (Ascii.eqb s2 "-") then Raise ValueError else
       d <- digits [d1; d2] ;;
       Ok (y, m, d))%res
  | _ => Raise ValueError
  end.

(** The fraction after [HH:MM:SS]: nothing, or a point and 3 or 6 digits. *)
Definition parse_ff (s : text) : result Z :=
  match s with
  | [] => Ok 0
  | c :: f =>
      if negb (Ascii.eqb c ".") then Raise ValueError
      else if (length f =? 3)%nat then (v <- digits f ;; Ok (v * 1000))%res
      else if (length f =? 6)%nat then digits f
      else Raise ValueError
  end.

(** [_parse_hh_mm_ss_ff]: [HH[:MM[:SS[.fff[fff]]]]]. *)
Definition parse_hh_mm_ss_ff (s : text) : result (Z * Z * Z * Z) :=
  match s with
  | h1 :: h2 :: r =>
      (h <- digits [h1; h2] ;;
       match r with
       | [] => Ok (h, 0, 0, 0)
       | c :: m1 :: m2 :: r =>
           if negb (Ascii.eqb c ":") then Raise ValueError else
           m <- digits [m1; m2] ;;
           match r with
           | [] => Ok (h, m, 0, 0)
           | c :: s1 :: s2 :: r =>
               if negb (Ascii.eqb c ":") then Raise ValueError else
               sec <- digits [s1; s2] ;;
               us <- parse_ff r ;;
               Ok (h, m, sec, us)
           | _ => Raise ValueError
           end
       | _ => Raise ValueError
       end)%res
  | _ => Raise ValueError
  end.

(** [s.find(c)]: the index of the first [c]. *)
Fixpoint find (c : ascii) (s : text) : option nat :=
  match s with
  | [] => None
  | x :: r => if Ascii.eqb x c then Some O else option_map S (find c r)
  end.

(** [_parse_isoformat_time]: the zone starts at the first [-] if there is
    one, at the first [+] otherwise. *)
Definition parse_isoformat_time (tstr : text)
    : result (Z * Z * Z * Z * option Z) :=
  if (length tstr <? 2)%nat then Raise ValueError else
  let tz_pos :=
    match find "-" tstr with
    | Some i => Some i
    | None => find "+" tstr
    end in
  match tz_pos with
  | None => (t <- parse_hh_mm_ss_ff tstr ;; Ok (t, None))%res
  | Some i =>
      (t <- parse_hh_mm_ss_ff (take i tstr) ;;
       let tzstr := drop (S i) tstr in
       if negb ((length tzstr =? 5) || (length tzstr =? 8)
                || (length tzstr =? 15))%nat
       then Raise ValueError else
       z <- parse_hh_mm_ss_ff tzstr ;;
       let '(zh, zm, zs, zus) := z in
       let td := ((zh * 60 + zm) * 60 + zs) * US_PER_SECOND + zus in
       if td =? 0 then Ok (t, Some 0)
       else if td <? US_PER_DAY then
         Ok (t, Some (if existsb (Ascii.eqb "-") (take 1 (drop i tstr))
                      then - td else td))
       else Raise ValueError)%res
  end.

(** [datetime.fromisoformat] as it stood before Python 3.11 widened it;
    what it accepts, every later version accepts with the same value. *)
Definition fromisoformat (s : text) : result iso_datetime :=
  if (length s <? 10)%nat then Raise ValueError else
  (date <- parse_isoformat_date (take 10 s) ;;
   let '(y, m, d) := date in
   let tstr := drop 11 s in
   time <- match tstr with
           | [] => Ok (0, 0, 0, 0, None)
           | _ => parse_isoformat_time tstr
           end ;;
   let '(h, mi, sec, us, tz) := time in
   if valid_date y m d && valid_time h mi sec us
   then Ok (IsoDatetime y m d h mi sec us tz)
   else Raise ValueError)%res.

(** [convert_whoop_str_to_datetime]. *)
Definition convert_whoop_str_to_datetime (whoop_dt tz : text)
    : result iso_datetime :=
  let adjusted_str := re_sub match_fraction zero_pad_microseconds 0 whoop_dt in
  let final_str := re_sub match_tz (correct_tz tz) 0 adjusted_str in
  fromisoformat final_str.

End Whoop.

(** ** Runs of the facade, and what the specification expects of them *)

Module FitbitRuns.
Import PyDate Text Strptime Fitbit.

(** The specification's reading of the date window: the records of a
    series whose date, read by [date_of], lies between the start and the
    end of the window, in the order of the series. *)
Definition records_in_window (date_of : gmap string pyval -> result datetime)
    (start_date end_date : datetime) (data : series) : series :=
  filter (fun r => match date_of r with
                   | Ok t => (start_date <=? t) && (t <=? end_date)
                   | Raise _ => false
                   end = true) data.


(** [date.strftime("%Y-%m-%d")] of the day with 0-based number [n]. *)
Definition strftime_ymd (n : Z) : string :=
  let '(y, m, d) := ord2ymd n in
  string_of_list_ascii
    (zpad 4 y ++ "-"%char :: zpad 2 m ++ "-"%char :: zpad 2 d).

(** A stand-in for the collaborators, to run the facade on examples: the
    random state is a counter set by the seed; the generator emits, for
    every data type, one record per day of the synthetic range with the
    day's date and a value drawn from the counter, and advances the counter;
    the vendor returns no record. *)
Definition demo_series (a b g : Z) : series :=
  map (fun i : Z =>
         <["dateTime" := VStr (strftime_ymd (a / US_PER_DAY + i))]>
           (<["value" := VInt ((g + i) mod 1000)]> (∅ : gmap string pyval)))
      (map Z.of_nat (seq 0 (Z.to_nat (sub_days b a + 1)))).

Definition demo_create_syn_data (s e : pyval) (g : Z) : (Z + syn_data) * Z :=
  match date_str_to_obj s, date_str_to_obj e with
  | Ok a, Ok b =>
      (inr (list_to_map (map (fun name => (name, demo_series a b g)) data_types)),
       g + sub_days b a + 1)
  | _, _ => (inl 1, g)
  end.

Definition demo : Collaborators := {|
  rng := Z;
  seed_everything := fun v => match v with VInt n => n | _ => 0 end;
  create_syn_data := demo_create_syn_data;
  user_t := string;
  fetch_real_data := fun _ _ _ _ => inr [];
|}.

Definition demo_world : @world demo := @World demo (0 : Z) [].

(** The record of the demo series for a day. *)
Definition day_record (date : string) (value : Z) : gmap string pyval :=
  <["dateTime" := VStr date]> (<["value" := VInt value]> ∅).

Definition window (start_date end_date : string) : gmap string pyval :=
  <["start_date" := VStr start_date]> (<["end_date" := VStr end_date]> ∅).

(** The date of a record of the demo series. *)
Definition dateTime_of (r : gmap string pyval) : result datetime :=
  (v <- getitem r "dateTime" ;; date_str_to_obj v)%res.

(** A five-day example: the configuration and the device that
    [Fitbit_sense(0, "2022-03-01", "2022-03-05")] builds, the same device
    once authenticated as user [u], and the series the demo generator
    gives it for every data type. *)
Definition march_params : gmap string pyval :=
  <["seed" := VInt 0]> (<["synthetic_start_date" := VStr "2022-03-01"]>
    (<["synthetic_end_date" := VStr "2022-03-05"]> ∅)).

Definition march_device : @device demo :=
  @Device demo data_types march_params false None false ∅.

Definition march_device_real : @device demo :=
  @Device demo data_types march_params true (Some "u"%string) false ∅.

Definition march_series : series :=
  [day_record "2022-03-01" 0; day_record "2022-03-02" 1;
   day_record "2022-03-03" 2; day_record "2022-03-04" 3;
   day_record "2022-03-05" 4].

(** Midnight of a day, as a datetime. *)
Definition midnight (y m d : Z) : datetime := (ymd2ord y m d - 1) * US_PER_DAY.



(** A result, or a computation, that does not raise [UnsupportedDataType]. *)
Definition supported {A} (r : result A) : Prop :=
  forall x, r <> Raise (UnsupportedDataType x).

(** Computations that do not raise [UnsupportedDataType]. *)
Definition msupported `{Collaborators} {A} (m : M A) : Prop :=
  forall self w, supported (m self w).1.1.



End FitbitRuns.

(** ** Runs of the vendor client, and the vendor's timestamps *)

Module WhoopRuns.
Import PyDate Text Strptime Whoop.



(** The query parameters of the window from [a] to [b]. *)
Definition window_params (a b : datetime) : gmap string string :=
  <["start" := string_of_list_ascii (strftime_iso_000Z a)]>
    (<["end" := string_of_list_ascii (strftime_iso_000Z b)]> ∅).

(** Week [i] counted from [start]. *)
Definition week (start : datetime) (i : Z) : datetime * datetime :=
  (start + 7 * i * US_PER_DAY, start + 7 * (i + 1) * US_PER_DAY).

(** The specification's reading of "the sub-windows together cover exactly
    the requested window": they start at its start, each begins where the
    one before ends, and the last ends at its end. *)
Fixpoint chained (a : datetime) (ws : list (datetime * datetime))
    (b : datetime) : Prop :=
  match ws with
  | [] => a = b
  | w :: rest => fst w = a /\ chained (snd w) rest b
  end.

(** A timestamp as the vendor sends it: date, [T], time, a point, the
    digits [frac] of the fraction, a plus sign and a zone [zone]. *)
Definition vendor_timestamp (y mo d h mi s : Z) (frac zone : text) : text :=
  zpad 4 y ++ "-"%char :: zpad 2 mo ++ "-"%char :: zpad 2 d ++ "T"%char ::
  zpad 2 h ++ ":"%char :: zpad 2 mi ++ ":"%char :: zpad 2 s ++ "."%char ::
  frac ++ "+"%char :: zone.

(** The vendor's zone text: two digits, a colon, two digits. *)
Definition vendor_zone (zone : text) : bool :=
  match zone with
  | [a; b; c; d; e] =>
      is_digit a && is_digit b && Ascii.eqb c ":" && is_digit d && is_digit e
  | _ => false
  end.

(** The vendor's separate offset field: a sign, hours and minutes. *)
Definition vendor_offset (negative : bool) (zh zm : Z) : text :=
  (if negative then "-"%char else "+"%char) :: zpad 2 zh ++ zpad 2 zm.

(** A stand-in for the outside, to run the client on examples: the server
    rejects every request with status 401 and a JSON error body; the clock
    stands at 2022-11-03T00:00:00; a tick's time is kept as it is. *)
Definition unauthorized : response :=
  Response 401 (Some (JObj (<["error" := JStr "unauthorized"]> ∅))).

Definition demo_outside : Outside := {|
  server := fun _ _ => unauthorized;
  clock := fun _ => (ymd2ord 2022 11 3 - 1) * US_PER_DAY;
  timestamp := json;
  tick_time_to_local_timezone := fun _ t => Ok t;
|}.

(** A server that answers every heart-rate query with one tick carrying
    the number of requests received before it. *)
Definition counting_server (log : list request) (r : request) : response :=
  Response 200
    (Some (JObj (<["values" :=
                    JArr [JObj (<["data" := JInt (Z.of_nat (length log))]>
                                 (<["time" := JInt 0]> ∅))]]> ∅))).

Definition counting_outside : Outside := {|
  server := counting_server;
  clock := fun _ => (ymd2ord 2022 11 3 - 1) * US_PER_DAY;
  timestamp := json;
  tick_time_to_local_timezone := fun _ t => Ok t;
|}.

(** The object that [WhoopUser("", "")] builds (the faked login). *)
Definition faked_user : WhoopUser :=
  User (Some [Lit "https://api-7.whoop.com/"])
       (Some [Lit "https://api-7.whoop.com/"; Lit "oauth/token"])
       (Some (JStr "")) (Some (JStr ""))
       (Some (<["Authorization" := [Lit "bearer "; Fmt (JStr "")]]> ∅))
       (Some [Lit "users/"; Fmt (JStr ""); Lit "/cycles"])
       (Some [Lit "https://api-7.whoop.com/"; Lit "users/"; Fmt (JStr "");
              Lit "/metrics/heart_rate"])
       (Some [Lit "https://api.prod.whoop.com/coaching-service/v1/health/metrics"])
       (Some 1).


(** A state with one more request sent. *)
Definition sending `{Outside} (st : state) (r : request) : state :=
  State (self st) (sent st ++ [r]) (clock_reads st).

(** [[\+|\-]]: the characters a zone may start with. *)
Definition sign_char (c : ascii) : bool :=
  Ascii.eqb c "+" || Ascii.eqb c "|" || Ascii.eqb c "-".

(** The text left by the two substitutions. *)
Definition corrected_text (date_time frac tz : text) : text :=
  date_time ++ "."%char :: ljust 3 "0" frac ++ take 3 tz ++ ":"%char :: drop 3 tz.

End WhoopRuns.

(** ** Further runs: the order of the stores, servers that grant a login *)

Module MoreRuns.
Import PyDate Text Strptime Fitbit Whoop FitbitRuns WhoopRuns.

(** The data types in the order in which [_gen_synthetic] assigns them
    (it is not the order of [data_types]). *)
Definition store_order : list string :=
  ["sleep"; "steps"; "minutesVeryActive"; "minutesFairlyActive";
   "minutesLightlyActive"; "distance"; "minutesSedentary"; "heart_rate_day";
   "hrv"; "distance_day"]%string.

(** The device once the series of [names] found in [syn] are assigned, one
    after the other. *)
Definition stored `{Collaborators} (syn : syn_data) (names : list string)
    (self : device) : device :=
  fold_left (fun d name =>
               match syn !! name with
               | Some v => set_attr name v d
               | None => d
               end) names self.

(** The assignments of [_gen_synthetic] as a loop over the names. *)
Fixpoint store_all `{Collaborators} (syn : syn_data) (names : list string)
    : M unit :=
  match names with
  | [] => Fitbit.ret tt
  | name :: rest => Fitbit.bind (store syn name) (fun _ => store_all syn rest)
  end.

(** A generator that knows the sleep series only, and the device of the
    five-day example configured with a window of its own. *)
Definition sleep_only : Collaborators := {|
  rng := Z;
  seed_everything := fun v => match v with VInt n => n | _ => 0 end;
  create_syn_data := fun _ _ g =>
    (inr (<["sleep" := march_series]> (∅ : syn_data)), g + 1);
  user_t := string;
  fetch_real_data := fun _ _ _ _ => inr [];
|}.

Definition sleep_only_device : @device sleep_only :=
  @Device sleep_only data_types march_params false None false ∅.

Definition sleep_only_world : @world sleep_only := @World sleep_only (0 : Z) [].

Definition configured_params : gmap string pyval :=
  <["start_date" := VStr "2022-04-01"]>
    (<["end_date" := VStr "2022-04-02"]> march_params).

Definition configured_device : @device demo :=
  @Device demo data_types configured_params true (Some "u"%string) false ∅.

(** The five-day device with another seed in its configuration. *)
Definition reseeded_device : @device demo :=
  @Device demo data_types (<["seed" := VInt 7]> march_params) false None
    false ∅.

(** A server that gives every request the same answer; the clock stands at
    2022-11-03T00:00:00 and a tick's time is kept as it is. *)
Definition answering (r : response) : Outside := {|
  server := fun _ _ => r;
  clock := fun _ => (ymd2ord 2022 11 3 - 1) * US_PER_DAY;
  timestamp := json;
  tick_time_to_local_timezone := fun _ t => Ok t;
|}.

(** The answer to a login that is granted, and one that carries a token
    and no user. *)
Definition granted : response :=
  Response 200
    (Some (JObj (<["access_token" := JStr "t0"]>
                  (<["user" := JObj (<["id" := JInt 42]> ∅)]> ∅)))).

Definition token_only : response :=
  Response 200 (Some (JObj (<["access_token" := JStr "t0"]> ∅))).

(** The object that [WhoopUser(email, password)] builds when the login
    yields the token [tok] and the user id [uid]. *)
Definition logged_in (tok uid : json) : WhoopUser :=
  User (Some [Lit "https://api-7.whoop.com/"])
       (Some [Lit "https://api-7.whoop.com/"; Lit "oauth/token"])
       (Some tok) (Some uid)
       (Some (<["Authorization" := [Lit "bearer "; Fmt tok]]> ∅))
       (Some [Lit "users/"; Fmt uid; Lit "/cycles"])
       (Some [Lit "https://api-7.whoop.com/"; Lit "users/"; Fmt uid;
              Lit "/metrics/heart_rate"])
       (Some [Lit "https://api.prod.whoop.com/coaching-service/v1/health/metrics"])
       (Some 1).

(** The login request of [WhoopUser(email, password)]. *)
Definition login_request (email password : string) : request :=
  POST [Lit "https://api-7.whoop.com/"; Lit "oauth/token"]
    (login_form email password).

(** A heart-rate window of one second less than a day. *)
Definition short_day : gmap string string :=
  <["start" := "2022-04-24T00:00:00.000Z"]>
    (<["end" := "2022-04-24T23:59:59.000Z"]> ∅).


(** What one tick contributes to the heart-rate frame. *)
Definition row_of_tick `{Outside} (timezone : string) (tick : json)
    (row : hr_row timestamp) : Prop :=
  subscript tick "data" = Ok (heart_rate _ row)
  /\ exists t, subscript tick "time" = Ok t
              /\ tick_time_to_local_timezone timezone t
                 = Ok (timestamp_of _ row).

(** A datetime that the windows can carry: whole seconds, from the year
    1000 on (where every platform prints the year on four digits). *)
Definition printable (t : datetime) : Prop :=
  ((ymd2ord 1000 1 1 - 1) * US_PER_DAY <= t < datetime_max)
  /\ t mod US_PER_SECOND = 0.

End MoreRuns.

(** * Properties of the device facade *)

Module FitbitFacts.
Import PyDate Text Strptime Fitbit FitbitRuns.
Open Scope string_scope.

Create HintDb supported.

Lemma supported_ok {A} (a : A) : supported (Ok a).
Proof. intros x; discriminate. Qed.

Lemma supported_rbind {A B} (r : result A) (k : A -> result B) :
  supported r -> (forall a, supported (k a)) -> supported (rbind r k).
Proof.
  intros Hr Hk x. destruct r as [a|e]; simpl.
  - apply Hk.
  - intros [= ->]. by apply (Hr x).
Qed.

Lemma supported_getitem {V} (d : gmap string V) k : supported (getitem d k).
Proof. intros x. unfold getitem. destruct (d !! k); discriminate. Qed.

Lemma supported_vendor {A} (r : Z + A) : supported (vendor r).
Proof. intros x. destruct r; discriminate. Qed.

Lemma supported_mk_datetime y m d h mi s us :
  supported (mk_datetime y m d h mi s us).
Proof. intros x. unfold mk_datetime. case (_ && _); discriminate. Qed.

Lemma supported_whole_match {A} (p : rx A) s : supported (whole_match p s).
Proof.
  intros x. unfold whole_match.
  destruct (p s) as [|[a [|c r]] l]; discriminate.
Qed.

Lemma supported_date_str_to_obj v : supported (date_str_to_obj v).
Proof.
  destruct v as [|n|s]; try (intros x; discriminate).
  unfold date_str_to_obj, strptime_ymd.
  apply supported_rbind; [apply supported_whole_match|].
  intros [[y m] d]. apply supported_mk_datetime.
Qed.

#[local] Hint Resolve supported_ok supported_getitem supported_vendor
  supported_date_str_to_obj : supported.

Ltac in_list := apply list_elem_of_In; simpl; tauto.

Section Facts.
Context `{Collaborators}.

Implicit Types (self : device) (w : world) (params : gmap string pyval).

(** [_filter_synthetic] raises exactly when the computation of its indices
    raises, and otherwise returns the series it was given. *)
Lemma filter_synthetic_unfold self (data : series) data_type params :
  _filter_synthetic self data data_type params
  = rbind (filter_indices self params) (fun _ => Ok data).
Proof.
  unfold _filter_synthetic, filter_indices.
  destruct (getitem (init_params self) "synthetic_start_date"); [simpl|done].
  destruct (date_str_to_obj a); [simpl|done].
  destruct (getitem params "start_date"); [simpl|done].
  destruct (date_str_to_obj a1); [simpl|done].
  destruct (getitem params "end_date"); [simpl|done].
  destruct (date_str_to_obj a3); done.
Qed.

Lemma filter_synthetic_returns_data self (data r : series) data_type params :
  _filter_synthetic self data data_type params = Ok r -> r = data.
Proof.
  rewrite filter_synthetic_unfold.
  destruct (filter_indices self params); simpl; congruence.
Qed.

Lemma supported_filter_synthetic self (data : series) data_type params :
  supported (_filter_synthetic self data data_type params).
Proof.
  unfold _filter_synthetic.
  repeat (apply supported_rbind; [auto with supported|intros ?]).
  auto with supported.
Qed.

(** [_get_real] does not read [params]. *)
Lemma get_real_params_irrelevant data_type params params' :
  _get_real data_type params = _get_real data_type params'.
Proof. reflexivity. Qed.

Lemma msupported_ret {A} (a : A) : msupported (ret a).
Proof. intros self w x; discriminate. Qed.

Lemma msupported_lift {A} (r : result A) : supported r -> msupported (lift r).
Proof. intros Hr self w. exact Hr. Qed.

Lemma msupported_get_self : msupported get_self.
Proof. intros self w x; discriminate. Qed.

Lemma msupported_modify_self f : msupported (modify_self f).
Proof. intros self w x; discriminate. Qed.

Lemma msupported_bind {A B} (m : M A) (k : A -> M B) :
  msupported m -> (forall a, msupported (k a)) -> msupported (bind m k).
Proof.
  intros Hm Hk self w. unfold bind. specialize (Hm self w).
  destruct (m self w) as [[[a|e] self'] w']; simpl in *.
  - apply Hk.
  - intros x [= ->]. by apply (Hm x).
Qed.

#[local] Hint Resolve msupported_ret msupported_lift msupported_get_self
  msupported_modify_self : supported.

Ltac msupported_steps :=
  repeat (apply msupported_bind; [auto with supported|intros ?]);
  auto with supported.

Lemma msupported_get_real data_type params :
  msupported (_get_real data_type params).
Proof.
  unfold _get_real. msupported_steps.
  - apply msupported_lift. destruct (user _); [auto with supported|].
    intros x; discriminate.
  - intros self w. simpl. auto with supported.
Qed.

Lemma msupported_store syn name : msupported (store syn name).
Proof. unfold store. msupported_steps. Qed.

Lemma msupported_gen_synthetic : msupported _gen_synthetic.
Proof.
  unfold _gen_synthetic.
  repeat first [ apply msupported_store
               | solve [auto with supported]
               | apply msupported_bind; [|intros ?] ].
  intros self w. simpl. destruct (create_syn_data _ _ _) as [r g]. simpl.
  auto with supported.
Qed.

(** Stepping through a sequence. *)
Lemma bind_ok {A B} (m : M A) (k : A -> M B) self w a self' w' :
  m self w = (Ok a, self', w') -> bind m k self w = k a self' w'.
Proof. intros E. unfold bind. by rewrite E. Qed.

Lemma bind_raise {A B} (m : M A) (k : A -> M B) self w e self' w' :
  m self w = (Raise e, self', w') -> bind m k self w = (Raise e, self', w').
Proof. intros E. unfold bind. by rewrite E. Qed.

Lemma store_ok (syn : syn_data) name v self w :
  syn !! name = Some v ->
  store syn name self w = (Ok tt, set_attr name v self, w).
Proof. intros E. unfold store, bind, lift, getitem. by rewrite E. Qed.








(** [_gen_synthetic] reads the dates of the configuration and the random
    state, never the seed held by the device. *)
Lemma gen_synthetic_seed_irrelevant seed self w :
  let self' := Device (valid_data_types self)
                 (<["seed" := seed]> (init_params self)) (authenticated self)
                 (user self) (synthetic_has_been_generated self) (attrs self) in
  (_gen_synthetic self w).1.1 = (_gen_synthetic self' w).1.1
  /\ attrs (_gen_synthetic self w).1.2 = attrs (_gen_synthetic self' w).1.2
  /\ (_gen_synthetic self w).2 = (_gen_synthetic self' w).2.
Proof.
  intros self'. unfold _gen_synthetic, bind, get_self, lift, getitem.
  subst self'. cbn [init_params].
  rewrite !lookup_insert_ne by done.
  destruct (init_params self !! "synthetic_start_date"); [|done].
  destruct (init_params self !! "synthetic_end_date"); [|done].
  destruct (create_syn_data _ _ _) as [[c|syn] g]; [done|]. cbn [vendor].
  unfold store, bind, lift, getitem, modify_self.
  repeat (match goal with
          | |- context [syn !! ?k] => destruct (syn !! k); [|done]
          end).
  done.
Qed.

(** C4. [get_data] fails with the unsupported-data-type error for every
    data type outside the device's declared supported set, touching
    neither the device nor the world; for a data type of the set it never
    fails with that error; the set declared by Fitbit Sense is the ten
    names of [data_types]. *)
Theorem get_data_validates_data_type data_type
    (caller : option (gmap string pyval)) self w :
  (data_type ∉ valid_data_types self ->
   get_data data_type caller self w
   = (Raise (UnsupportedDataType data_type), self, w))
  /\ (data_type ∈ valid_data_types self ->
      forall x, (get_data data_type caller self w).1.1
                <> Raise (UnsupportedDataType x))
  /\ (forall seed s e w0 d w1,
        Fitbit_sense seed s e w0 = (Ok d, w1) ->
        valid_data_types d = data_types).
Proof.
  split; [|split].
  - intros Hnot. unfold get_data, bind, get_self.
    by rewrite bool_decide_eq_false_2.
  - intros Hin. unfold get_data, bind at 1, get_self.
    rewrite bool_decide_eq_true_2 by done.
    destruct (authenticated self); [apply msupported_get_real|].
    apply msupported_bind.
    + destruct (synthetic_has_been_generated self); [auto with supported|].
      apply msupported_bind; [apply msupported_gen_synthetic|].
      auto with supported.
    + intros _. apply msupported_bind; [auto with supported|].
      intros d. apply msupported_bind.
      * apply msupported_lift. unfold getattr.
        destruct (attrs d !! data_type); intros x; discriminate.
      * intros data. apply msupported_lift.
        apply supported_filter_synthetic.
  - intros seed s e w0 d w1.
    unfold Fitbit_sense, _initialize_device_params.
    destruct (getitem _ "seed"); intros [= <- <-]. done.
Qed.




End Facts.

Section Examples.
#[local] Existing Instance demo.

Ltac conjs := repeat match goal with |- _ /\ _ => split end.

Lemma march_device_constructed :
  Fitbit_sense (VInt 0) (VStr "2022-03-01") (VStr "2022-03-05") demo_world
  = (Ok march_device, demo_world).
Proof. reflexivity. Qed.

Lemma march_device_authenticated :
  authenticate "u" march_device demo_world
  = (Ok tt, march_device_real, demo_world).
Proof. reflexivity. Qed.

(** C1 (failing input). On a five-day series with one record per day and
    the window 2022-03-02 .. 2022-03-03, [_filter_synthetic] computes the
    indices 1 and 2 and returns all five records, where the window holds
    two; [get_data] hands this result to the caller. *)
Theorem filter_synthetic_returns_whole_series :
  let params := window "2022-03-02" "2022-03-03" in
  filter_indices march_device params = Ok (1, 2)
  /\ _filter_synthetic march_device march_series "steps" params
     = Ok march_series
  /\ (get_data "steps" (Some params) march_device demo_world).1.1
     = Ok march_series
  /\ records_in_window dateTime_of (midnight 2022 3 2) (midnight 2022 3 3)
       march_series
     = [day_record "2022-03-02" 1; day_record "2022-03-03" 2]
  /\ length march_series = 5%nat.
Proof. cbv zeta. conjs; reflexivity. Qed.

(** C2 (failing input). In real mode, with the caller's window 2022-05-01
    .. 2022-05-02, [get_data] raises [KeyError] on the [start_date] entry of
    the device's configuration and never calls the vendor, with the caller's
    window or any other. *)
Theorem get_real_drops_caller_window :
  get_data "steps" (Some (window "2022-05-01" "2022-05-02"))
    march_device_real demo_world
  = (Raise (KeyError "start_date"), march_device_real, demo_world).
Proof. reflexivity. Qed.


Lemma get_data_validates_data_type_witness :
  get_data "weight" None march_device demo_world
  = (Raise (UnsupportedDataType "weight"), march_device, demo_world)
  /\ (forall x, (get_data "steps" None march_device demo_world).1.1
                <> Raise (UnsupportedDataType x))
  /\ valid_data_types march_device = data_types.
Proof.
  split; [|split].
  - apply (get_data_validates_data_type "weight" None march_device demo_world).
    rewrite list_elem_of_In. simpl. intuition discriminate.
  - apply (get_data_validates_data_type "steps" None march_device demo_world).
    in_list.
  - eapply (get_data_validates_data_type "steps" None march_device demo_world).
    exact march_device_constructed.
Defined.


End Examples.

End FitbitFacts.

(** * Properties of the vendor client *)

Module WhoopFacts.
Import PyDate Text Strptime Whoop WhoopRuns.
Open Scope string_scope.

Ltac conjs := repeat match goal with |- _ /\ _ => split end.

Section Facts.
Context `{Outside}.

Implicit Types (st : state) (params : gmap string string).

(** Stepping through a sequence. *)
Lemma step_ok {A B} (m : W A) (k : A -> W B) st a st' :
  m st = (Ok a, st') -> bind m k st = k a st'.
Proof. intros E. unfold bind. by rewrite E. Qed.

Lemma step_raise {A B} (m : W A) (k : A -> W B) st e st' :
  m st = (Raise e, st') -> bind m k st = (Raise e, st').
Proof. intros E. unfold bind. by rewrite E. Qed.

Lemma attr_ok {A} name (field : WhoopUser -> option A) st v :
  field (self st) = Some v -> attr name field st = (Ok v, st).
Proof. intros E. unfold attr. by rewrite E. Qed.

(** C10. With an empty email [login] sends nothing and raises nothing: it
    sets the token and the user id to the empty string and returns; so a
    login that raises "Credentials rejected" had a non-empty email. *)
Theorem login_empty_email password st :
  login "" password st
  = (Ok tt,
     State (set_user_id (JStr "") (set_token (JStr "") (self st)))
       (sent st) (clock_reads st))
  /\ (forall email msg st',
        login email password st = (Raise (AssertionError msg), st') ->
        email <> "" /\ msg = "Credentials rejected").
Proof.
  split; [reflexivity|].
  intros email msg st' E. destruct email as [|c email].
  { unfold login, bind, assign in E. cbn in E. inversion E. }
  split; [discriminate|].
  unfold login in E. cbn [String.length Nat.eqb] in E.
  unfold bind, attr, send, raise, lift, assign in E.
  destruct (AUTH_URL (self st)); cbn in E; [|by inversion E].
  destruct (negb _); [by inversion E|].
  unfold json_of in E.
  destruct (body _) as [j|]; cbn in E; [|by inversion E].
  unfold subscript, getitem in E.
  destruct j; cbn in E; try (by inversion E).
  destruct (fields !! "access_token"); cbn in E; [|by inversion E].
  destruct (fields !! "user") as [u|]; cbn in E; [|by inversion E].
  destruct u; cbn in E; try (by inversion E).
  destruct (fields0 !! "id"); cbn in E; by inversion E.
Qed.

(** The exceptions of the JSON steps of [login] are never assertion
    errors. *)
Lemma json_of_not_assertion r msg : json_of r <> Raise (AssertionError msg).
Proof. unfold json_of. destruct (body r); discriminate. Qed.


End Facts.

(** ** Week-long windows *)

#[local] Open Scope Z_scope.
#[local] Open Scope list_scope.







(** The ceiling of [d / 7]. *)
Lemma ceil_div7_spec d : 7 * (ceil_div7 d - 1) < d <= 7 * ceil_div7 d.
Proof.
  unfold ceil_div7.
  pose proof (Z.div_mod (- d) 7 ltac:(lia)).
  pose proof (Z.mod_pos_bound (- d) 7 ltac:(lia)). lia.
Qed.

Lemma segment_ok start i :
  0 <= start -> 0 <= i ->
  start + 7 * (i + 1) * US_PER_DAY < datetime_max ->
  segment start i = Ok (window_params (week start i).1 (week start i).2).
Proof.
  intros H0 Hi Hmax. unfold segment, add_days, week. cbv zeta.
  assert (0 < US_PER_DAY) by (unfold US_PER_DAY, US_PER_SECOND; lia).
  rewrite (proj2 (andb_true_iff _ _)) by (split; [apply Z.leb_le|apply Z.ltb_lt]; nia).
  cbn [rbind].
  rewrite (proj2 (andb_true_iff _ _)) by (split; [apply Z.leb_le|apply Z.ltb_lt]; nia).
  cbn [rbind fst snd]. unfold window_params.
  by replace (7 * i * US_PER_DAY) with (7 * i * US_PER_DAY) by lia.
Qed.

Lemma segments_ok start (a k : nat) :
  0 <= start ->
  start + 7 * Z.of_nat (a + k) * US_PER_DAY < datetime_max ->
  segments start (map Z.of_nat (seq a k))
  = Ok (map (fun w => window_params w.1 w.2)
          (map (week start) (map Z.of_nat (seq a k)))).
Proof.
  intros H0. revert a. induction k as [|k IH]; intros a Hmax; [done|].
  assert (0 < US_PER_DAY) by (unfold US_PER_DAY, US_PER_SECOND; lia).
  cbn [seq map segments].
  rewrite segment_ok by nia. cbn [rbind].
  rewrite IH by (replace (S a + k)%nat with (a + S k)%nat by lia; done).
  done.
Qed.

Lemma chained_weeks start (a k : nat) :
  chained (start + 7 * Z.of_nat a * US_PER_DAY)
    (map (week start) (map Z.of_nat (seq a k)))
    (start + 7 * Z.of_nat (a + k) * US_PER_DAY).
Proof.
  revert a. induction k as [|k IH]; intros a; cbn.
  - by rewrite Nat.add_0_r.
  - split; [done|].
    replace (a + S k)%nat with (S a + k)%nat by lia.
    replace (start + 7 * (Z.of_nat a + 1) * US_PER_DAY)
      with (start + 7 * Z.of_nat (S a) * US_PER_DAY) by lia.
    apply IH.
Qed.

Section Segments.
Context `{Outside}.

Implicit Types (st : state) (params : gmap string string).



End Segments.

(** ** The vendor's timestamps *)

Lemma code_digit_char d : 0 <= d < 10 -> code (digit_char d) = 48 + d.
Proof.
  intros Hd. unfold code, digit_char.
  rewrite N_ascii_embedding by lia. lia.
Qed.

Lemma is_digit_digit_char d : 0 <= d < 10 -> is_digit (digit_char d) = true.
Proof.
  intros Hd. unfold is_digit. rewrite code_digit_char by done.
  apply andb_true_iff; split; lia.
Qed.

Lemma digit_val_digit_char d : 0 <= d < 10 -> digit_val (digit_char d) = d.
Proof. intros Hd. unfold digit_val. rewrite code_digit_char by done. lia. Qed.

Lemma digit_val_bound c : is_digit c = true -> 0 <= digit_val c <= 9.
Proof.
  unfold is_digit, digit_val. intros Hc.
  apply andb_true_iff in Hc as [? ?]. lia.
Qed.

(** A digit is none of the characters the patterns look for. *)
Lemma digit_eqb c x :
  is_digit c = true -> is_digit x = false -> Ascii.eqb c x = false.
Proof.
  intros Hc Hx. apply Ascii.eqb_neq. intros ->. congruence.
Qed.

Lemma digit_eqb_point c : is_digit c = true -> Ascii.eqb c "." = false.
Proof. intros Hc. by apply digit_eqb. Qed.

Lemma digit_eqb_plus c : is_digit c = true -> Ascii.eqb c "+" = false.
Proof. intros Hc. by apply digit_eqb. Qed.

Lemma digit_eqb_bar c : is_digit c = true -> Ascii.eqb c "|" = false.
Proof. intros Hc. by apply digit_eqb. Qed.

Lemma digit_eqb_minus c : is_digit c = true -> Ascii.eqb c "-" = false.
Proof. intros Hc. by apply digit_eqb. Qed.

Lemma digit_eqb_colon c : is_digit c = true -> Ascii.eqb c ":" = false.
Proof. intros Hc. by apply digit_eqb. Qed.

Create Rewrite HintDb whoop_digits.
#[local] Hint Rewrite digit_eqb_point digit_eqb_plus digit_eqb_bar
  digit_eqb_minus digit_eqb_colon using assumption : whoop_digits.

(** Two and four digits of a number. *)
Lemma zpad2_digits n :
  0 <= n < 100 ->
  exists c1 c2,
    zpad 2 n = [c1; c2] /\ is_digit c1 = true /\ is_digit c2 = true
    /\ int_of_digits [c1; c2] = n.
Proof.
  intros Hn. exists (digit_char (n / 10 mod 10)), (digit_char (n mod 10)).
  assert (0 <= n / 10 mod 10 < 10) by (apply Z.mod_pos_bound; lia).
  assert (0 <= n mod 10 < 10) by (apply Z.mod_pos_bound; lia).
  conjs; [done|by apply is_digit_digit_char..|].
  unfold int_of_digits. cbn [fold_left].
  rewrite !digit_val_digit_char by done.
  rewrite (Z.mod_small (n / 10) 10) by (split; [apply Z.div_pos|apply Z.div_lt_upper_bound]; lia).
  pose proof (Z.div_mod n 10 ltac:(lia)). lia.
Qed.

Lemma zpad4_digits n :
  0 <= n < 10000 ->
  exists c1 c2 c3 c4,
    zpad 4 n = [c1; c2; c3; c4]
    /\ is_digit c1 = true /\ is_digit c2 = true
    /\ is_digit c3 = true /\ is_digit c4 = true
    /\ int_of_digits [c1; c2; c3; c4] = n.
Proof.
  intros Hn.
  exists (digit_char (n / 10 / 10 / 10 mod 10)),
    (digit_char (n / 10 / 10 mod 10)),
    (digit_char (n / 10 mod 10)), (digit_char (n mod 10)).
  assert (forall k, 0 <= k mod 10 < 10) as Hm
    by (intros k; apply Z.mod_pos_bound; lia).
  conjs; [done|by apply is_digit_digit_char..|].
  unfold int_of_digits. cbn [fold_left].
  rewrite !digit_val_digit_char by done.
  pose proof (Z.div_mod n 10 ltac:(lia)).
  pose proof (Z.div_mod (n / 10) 10 ltac:(lia)).
  pose proof (Z.div_mod (n / 10 / 10) 10 ltac:(lia)).
  assert (0 <= n / 10 / 10 / 10 < 10).
  { split; [repeat apply Z.div_pos; lia|].
    repeat apply Z.div_lt_upper_bound; lia. }
  rewrite (Z.mod_small (n / 10 / 10 / 10) 10) by done. lia.
Qed.

(** The substitutions, one step at a time. *)
Lemma re_sub_skip m repl c r :
  m (c :: r) = None ->
  re_sub m repl 0 (c :: r) = c :: re_sub m repl 0 r.
Proof. intros E. cbn [re_sub]. by rewrite E. Qed.

Lemma re_sub_skip_all m repl p s :
  (forall c r, c ∈ p -> m (c :: r) = None) ->
  re_sub m repl 0 (p ++ s) = p ++ re_sub m repl 0 s.
Proof.
  induction p as [|c p IH]; intros Hm; [done|].
  cbn [app]. rewrite re_sub_skip by (apply Hm; left).
  rewrite IH; [done|]. intros c' r Hc'. apply Hm. by right.
Qed.

Lemma re_sub_pass m repl (p : text) s :
  re_sub m repl (length p) (p ++ s) = re_sub m repl 0 s.
Proof.
  induction p as [|c p IH]; [by destruct s|]. exact IH.
Qed.

Lemma match_fraction_other c r :
  Ascii.eqb c "." = false -> match_fraction (c :: r) = None.
Proof. intros E. unfold match_fraction. by rewrite E. Qed.

Lemma match_tz_other c r : sign_char c = false -> match_tz (c :: r) = None.
Proof.
  unfold sign_char. intros E. unfold match_tz.
  destruct r as [|h1 [|h2 [|k [|m1 [|m2 r]]]]]; try done. by rewrite E.
Qed.

Lemma match_tz_no_colon c h1 h2 k r :
  Ascii.eqb k ":" = false -> match_tz (c :: h1 :: h2 :: k :: r) = None.
Proof.
  intros E. unfold match_tz. destruct r as [|m1 [|m2 r]]; try done.
  rewrite E. by rewrite !andb_false_r.
Qed.

Lemma digit_not_point c : is_digit c = true -> Ascii.eqb c "." = false.
Proof. intros Hc. by apply digit_eqb. Qed.

Lemma digit_not_sign c : is_digit c = true -> sign_char c = false.
Proof.
  intros Hc. unfold sign_char.
  by rewrite !(digit_eqb c) by done.
Qed.

(** The fraction is padded where it stands. *)
Lemma re_sub_fraction_hit frac z1 z2 z3 z4 :
  forallb is_digit frac = true -> (length frac < 3)%nat ->
  is_digit z1 = true -> is_digit z2 = true ->
  is_digit z3 = true -> is_digit z4 = true ->
  re_sub match_fraction zero_pad_microseconds 0
    ("."%char :: frac ++ "+"%char :: [z1; z2; ":"%char; z3; z4])
  = "."%char :: ljust 3 "0" frac ++ "+"%char :: [z1; z2; ":"%char; z3; z4].
Proof.
  intros Hf Hlen Hz1 Hz2 Hz3 Hz4.
  assert (re_sub match_fraction zero_pad_microseconds 0
            [z1; z2; ":"%char; z3; z4] = [z1; z2; ":"%char; z3; z4]) as Ez.
  { rewrite <- (app_nil_r [z1; z2; ":"%char; z3; z4]) at 1.
    rewrite re_sub_skip_all; [by rewrite app_nil_r|].
    intros c r Hc. apply match_fraction_other.
    repeat (apply elem_of_cons in Hc as [->|Hc];
            [first [reflexivity | by apply digit_not_point]|]).
    by apply elem_of_nil in Hc. }
  assert (match_fraction
            ("."%char :: frac ++ "+"%char :: [z1; z2; ":"%char; z3; z4])
          = Some (frac, S (S (length frac)))) as Em.
  { destruct frac as [|f1 [|f2 [|f3 frac]]]; [| | |cbn in Hlen; lia].
    - reflexivity.
    - cbn [forallb] in Hf. apply andb_true_iff in Hf as [Hf1 _].
      unfold match_fraction, digits_then_plus.
      cbn [Ascii.eqb Bool.eqb app take drop length Nat.eqb forallb andb].
      rewrite ?Hf1, ?Hz1. reflexivity.
    - cbn [forallb] in Hf. apply andb_true_iff in Hf as [Hf1 Hf].
      apply andb_true_iff in Hf as [Hf2 _].
      unfold match_fraction, digits_then_plus.
      cbn [Ascii.eqb Bool.eqb app take drop length Nat.eqb forallb andb].
      rewrite ?Hf1, ?Hf2. reflexivity. }
  cbn [re_sub]. rewrite Em. cbn [Nat.sub].
  change (frac ++ "+"%char :: [z1; z2; ":"%char; z3; z4])
    with (frac ++ ["+"%char] ++ [z1; z2; ":"%char; z3; z4]).
  rewrite app_assoc.
  replace (S (length frac)) with (length (frac ++ ["+"%char]))
    by (rewrite length_app; cbn; lia).
  rewrite re_sub_pass, Ez. unfold zero_pad_microseconds.
  cbn [app]. by rewrite <- !app_assoc.
Qed.

Ltac not_point :=
  apply match_fraction_other;
  first [reflexivity | apply digit_not_point; assumption].

Ltac not_zone :=
  first [ apply match_tz_other;
          first [reflexivity | apply digit_not_sign; assumption]
        | apply match_tz_no_colon; reflexivity ].

Lemma forallb_digit_elem (l : text) c :
  forallb is_digit l = true -> c ∈ l -> is_digit c = true.
Proof.
  intros Hl Hc. rewrite forallb_forall in Hl. apply Hl.
  by apply list_elem_of_In.
Qed.

Lemma ljust_digits frac :
  forallb is_digit frac = true -> forallb is_digit (ljust 3 "0" frac) = true.
Proof.
  intros Hf. unfold ljust. rewrite forallb_app, Hf. cbn [andb].
  induction (3 - length frac)%nat as [|k IH]; [done|exact IH].
Qed.

Lemma substitutions_on_vendor_text
    y1 y2 y3 y4 m1 m2 d1 d2 h1 h2 i1 i2 s1 s2 frac z1 z2 z3 z4 tz :
  is_digit y1 = true -> is_digit y2 = true -> is_digit y3 = true ->
  is_digit y4 = true -> is_digit m1 = true -> is_digit m2 = true ->
  is_digit d1 = true -> is_digit d2 = true -> is_digit h1 = true ->
  is_digit h2 = true -> is_digit i1 = true -> is_digit i2 = true ->
  is_digit s1 = true -> is_digit s2 = true ->
  forallb is_digit frac = true -> (length frac < 3)%nat ->
  is_digit z1 = true -> is_digit z2 = true ->
  is_digit z3 = true -> is_digit z4 = true ->
  let date_time :=
    [y1; y2; y3; y4; "-"; m1; m2; "-"; d1; d2; "T"; h1; h2; ":"; i1; i2; ":";
     s1; s2]%char in
  re_sub match_tz (correct_tz tz) 0
    (re_sub match_fraction zero_pad_microseconds 0
       (date_time ++ "."%char :: frac ++ "+"%char :: [z1; z2; ":"%char; z3; z4]))
  = corrected_text date_time frac tz.
Proof.
  intros Hy1 Hy2 Hy3 Hy4 Hm1 Hm2 Hd1 Hd2 Hh1 Hh2 Hi1 Hi2 Hs1 Hs2 Hf Hlen
    Hz1 Hz2 Hz3 Hz4 date_time.
  subst date_time. unfold corrected_text. cbn [app].
  repeat (rewrite (re_sub_skip match_fraction) by not_point).
  rewrite re_sub_fraction_hit by done.
  repeat (rewrite (re_sub_skip match_tz) by not_zone).
  rewrite (re_sub_skip_all match_tz); last first.
  { intros c r Hc. apply match_tz_other, digit_not_sign.
    eapply forallb_digit_elem; [by apply ljust_digits|done]. }
  assert (match_tz ("+"%char :: [z1; z2; ":"%char; z3; z4])
          = Some ("+"%char :: [z1; z2; ":"%char; z3; z4], 6%nat)) as Em.
  { unfold match_tz. by rewrite Hz1, Hz2, Hz3, Hz4. }
  cbn [re_sub]. rewrite Em. cbn [Nat.sub re_sub].
  unfold correct_tz. by rewrite app_nil_r.
Qed.

(** Reading the corrected text back. *)
Lemma digits_ok (l : text) :
  forallb is_digit l = true -> l <> [] -> digits l = Ok (int_of_digits l).
Proof.
  intros Hl Hne. unfold digits. rewrite Hl.
  destruct l; [done|reflexivity].
Qed.

Lemma digits2 c1 c2 :
  is_digit c1 = true -> is_digit c2 = true ->
  digits [c1; c2] = Ok (int_of_digits [c1; c2]).
Proof.
  intros H1 H2. apply digits_ok; [|done]. cbn [forallb]. by rewrite H1, H2.
Qed.

Lemma int_of_digits3_bound f1 f2 f3 :
  is_digit f1 = true -> is_digit f2 = true -> is_digit f3 = true ->
  0 <= int_of_digits [f1; f2; f3] <= 999.
Proof.
  intros H1 H2 H3. unfold int_of_digits. cbn [fold_left].
  pose proof (digit_val_bound _ H1). pose proof (digit_val_bound _ H2).
  pose proof (digit_val_bound _ H3). lia.
Qed.

Lemma parse_isoformat_date_ok y1 y2 y3 y4 m1 m2 d1 d2 :
  is_digit y1 = true -> is_digit y2 = true -> is_digit y3 = true ->
  is_digit y4 = true -> is_digit m1 = true -> is_digit m2 = true ->
  is_digit d1 = true -> is_digit d2 = true ->
  parse_isoformat_date [y1; y2; y3; y4; "-"; m1; m2; "-"; d1; d2]%char
  = Ok (int_of_digits [y1; y2; y3; y4], int_of_digits [m1; m2],
        int_of_digits [d1; d2]).
Proof.
  intros Hy1 Hy2 Hy3 Hy4 Hm1 Hm2 Hd1 Hd2. unfold parse_isoformat_date.
  rewrite (digits_ok [y1; y2; y3; y4])
    by (first [done | cbn [forallb]; by rewrite Hy1, Hy2, Hy3, Hy4]).
  rewrite !digits2 by done. reflexivity.
Qed.

Lemma parse_time_ok h1 h2 i1 i2 s1 s2 f1 f2 f3 :
  is_digit h1 = true -> is_digit h2 = true -> is_digit i1 = true ->
  is_digit i2 = true -> is_digit s1 = true -> is_digit s2 = true ->
  is_digit f1 = true -> is_digit f2 = true -> is_digit f3 = true ->
  parse_hh_mm_ss_ff [h1; h2; ":"; i1; i2; ":"; s1; s2; "."; f1; f2; f3]%char
  = Ok (int_of_digits [h1; h2], int_of_digits [i1; i2],
        int_of_digits [s1; s2], int_of_digits [f1; f2; f3] * 1000).
Proof.
  intros Hh1 Hh2 Hi1 Hi2 Hs1 Hs2 Hf1 Hf2 Hf3. unfold parse_hh_mm_ss_ff.
  rewrite !digits2 by done. cbn [rbind Ascii.eqb Bool.eqb negb andb].
  unfold parse_ff. cbn [Ascii.eqb Bool.eqb negb andb length Nat.eqb].
  rewrite (digits_ok [f1; f2; f3])
    by (first [done | cbn [forallb]; by rewrite Hf1, Hf2, Hf3]).
  reflexivity.
Qed.

Lemma parse_zone_ok a1 a2 b1 b2 :
  is_digit a1 = true -> is_digit a2 = true ->
  is_digit b1 = true -> is_digit b2 = true ->
  parse_hh_mm_ss_ff [a1; a2; ":"; b1; b2]%char
  = Ok (int_of_digits [a1; a2], int_of_digits [b1; b2], 0, 0).
Proof.
  intros Ha1 Ha2 Hb1 Hb2. unfold parse_hh_mm_ss_ff.
  rewrite !digits2 by done. reflexivity.
Qed.

Lemma find_skip c x r :
  Ascii.eqb x c = false -> find c (x :: r) = option_map S (find c r).
Proof. intros E. cbn [find]. by rewrite E. Qed.

Lemma find_hit c r : find c (c :: r) = Some 0%nat.
Proof. cbn [find]. by rewrite Ascii.eqb_refl. Qed.

Ltac not_char :=
  first [reflexivity | apply digit_eqb; [assumption|reflexivity]].

Lemma parse_isoformat_time_ok h1 h2 i1 i2 s1 s2 f1 f2 f3
    (negative : bool) a1 a2 b1 b2 :
  is_digit h1 = true -> is_digit h2 = true -> is_digit i1 = true ->
  is_digit i2 = true -> is_digit s1 = true -> is_digit s2 = true ->
  is_digit f1 = true -> is_digit f2 = true -> is_digit f3 = true ->
  is_digit a1 = true -> is_digit a2 = true ->
  is_digit b1 = true -> is_digit b2 = true ->
  0 <= int_of_digits [a1; a2] <= 23 -> 0 <= int_of_digits [b1; b2] <= 59 ->
  let td := (int_of_digits [a1; a2] * 60 + int_of_digits [b1; b2]) * 60
            * US_PER_SECOND in
  parse_isoformat_time
    ([h1; h2; ":"; i1; i2; ":"; s1; s2; "."; f1; f2; f3]%char
     ++ (if negative then "-" else "+")%char :: [a1; a2; ":"%char; b1; b2])
  = Ok (int_of_digits [h1; h2], int_of_digits [i1; i2],
        int_of_digits [s1; s2], int_of_digits [f1; f2; f3] * 1000,
        Some (if negative then - td else td)).
Proof.
  intros Hh1 Hh2 Hi1 Hi2 Hs1 Hs2 Hf1 Hf2 Hf3 Ha1 Ha2 Hb1 Hb2 Hzh Hzm td.
  unfold parse_isoformat_time. cbn [app length Nat.ltb Nat.leb].
  assert (forall sign : ascii,
            find "-"
              [h1; h2; ":"%char; i1; i2; ":"%char; s1; s2; "."%char; f1; f2;
               f3; sign; a1; a2; ":"%char; b1; b2]
            = if Ascii.eqb sign "-" then Some 12%nat else None) as Eminus.
  { intros sign. repeat (rewrite (find_skip "-") by not_char).
    destruct (Ascii.eqb sign "-") eqn:Es.
    - apply Ascii.eqb_eq in Es as ->. by rewrite find_hit.
    - rewrite (find_skip "-") by exact Es.
      repeat (rewrite (find_skip "-") by not_char). reflexivity. }
  assert (find "+"
            [h1; h2; ":"%char; i1; i2; ":"%char; s1; s2; "."%char; f1; f2;
             f3; "+"%char; a1; a2; ":"%char; b1; b2] = Some 12%nat) as Eplus.
  { repeat (rewrite (find_skip "+") by not_char). by rewrite find_hit. }
  rewrite Eminus.
  assert (((int_of_digits [a1; a2] * 60 + int_of_digits [b1; b2]) * 60 + 0)
          * US_PER_SECOND + 0 = td) as Etd by (subst td; lia).
  assert (0 <= td < US_PER_DAY) as Hbound
    by (subst td; unfold US_PER_DAY, US_PER_SECOND; lia).
  destruct negative.
  - cbn [Ascii.eqb Bool.eqb andb take drop length Nat.eqb orb negb existsb].
    rewrite parse_time_ok, parse_zone_ok by done. cbn [rbind]. rewrite Etd.
    destruct (td =? 0) eqn:E0.
    + apply Z.eqb_eq in E0. by rewrite E0.
    + rewrite (proj2 (Z.ltb_lt _ _)) by lia. reflexivity.
  - cbn [Ascii.eqb Bool.eqb andb]. rewrite Eplus.
    cbn [Ascii.eqb Bool.eqb andb take drop length Nat.eqb orb negb existsb].
    rewrite parse_time_ok, parse_zone_ok by done. cbn [rbind]. rewrite Etd.
    destruct (td =? 0) eqn:E0.
    + apply Z.eqb_eq in E0. by rewrite E0.
    + rewrite (proj2 (Z.ltb_lt _ _)) by lia. reflexivity.
Qed.

Lemma ljust3_digits frac :
  forallb is_digit frac = true -> (length frac < 3)%nat ->
  exists f1 f2 f3,
    ljust 3 "0" frac = [f1; f2; f3]
    /\ is_digit f1 = true /\ is_digit f2 = true /\ is_digit f3 = true.
Proof.
  intros Hf Hlen.
  destruct frac as [|f1 [|f2 [|f3 frac]]]; [| | |cbn in Hlen; lia];
    cbn [forallb] in Hf.
  - by exists "0"%char, "0"%char, "0"%char.
  - apply andb_true_iff in Hf as [H1 _]. by exists f1, "0"%char, "0"%char.
  - apply andb_true_iff in Hf as [H1 Hf]. apply andb_true_iff in Hf as [H2 _].
    by exists f1, f2, "0"%char.
Qed.

Lemma days_in_month_le y m : days_in_month y m <= 31.
Proof.
  unfold days_in_month.
  destruct (m =? 2); [destruct (is_leap y); lia|].
  destruct (_ || _); lia.
Qed.

Lemma valid_date_bounds y m d :
  valid_date y m d = true -> 1 <= y <= 9999 /\ 1 <= m <= 12 /\ 1 <= d <= 31.
Proof.
  unfold valid_date, MINYEAR, MAXYEAR. intros Hv.
  repeat (apply andb_prop in Hv as [Hv ?]).
  pose proof (days_in_month_le y m). lia.
Qed.

Lemma valid_time_bounds h mi s us :
  valid_time h mi s us = true <->
  0 <= h <= 23 /\ 0 <= mi <= 59 /\ 0 <= s <= 59 /\ 0 <= us <= 999999.
Proof.
  unfold valid_time. rewrite !andb_true_iff, !Z.leb_le. lia.
Qed.

(** C8. A vendor timestamp whose fraction has fewer than three digits
    before the plus sign, followed by the vendor's zone text, is converted
    as follows when the separate offset field is a sign, two digits of
    hours and two of minutes: the fraction is padded on the right with
    zeros to three digits and the zone is replaced by the offset field with
    a colon put in; the text obtained is accepted by [fromisoformat], and
    the datetime read has the date and time of the timestamp, the padded
    fraction as milliseconds, and the offset of the field. *)
Theorem convert_whoop_str_to_datetime_vendor
    y mo d h mi s frac zone (negative : bool) zh zm :
  valid_date y mo d = true -> valid_time h mi s 0 = true ->
  forallb is_digit frac = true -> (length frac < 3)%nat ->
  vendor_zone zone = true ->
  0 <= zh <= 23 -> 0 <= zm <= 59 ->
  let whoop_dt := vendor_timestamp y mo d h mi s frac zone in
  let tz := vendor_offset negative zh zm in
  let offset := (zh * 60 + zm) * 60 * US_PER_SECOND in
  re_sub match_tz (correct_tz tz) 0
    (re_sub match_fraction zero_pad_microseconds 0 whoop_dt)
  = zpad 4 y ++ "-"%char :: zpad 2 mo ++ "-"%char :: zpad 2 d ++ "T"%char ::
    zpad 2 h ++ ":"%char :: zpad 2 mi ++ ":"%char :: zpad 2 s ++ "."%char ::
    ljust 3 "0" frac ++ take 3 tz ++ ":"%char :: drop 3 tz
  /\ convert_whoop_str_to_datetime whoop_dt tz
     = Ok (IsoDatetime y mo d h mi s
             (int_of_digits (ljust 3 "0" frac) * 1000)
             (Some (if negative then - offset else offset))).
Proof.
  intros Hvd Hvt Hf Hlen Hzone Hzh Hzm whoop_dt tz offset.
  destruct (valid_date_bounds _ _ _ Hvd) as (Hy & Hmo & Hd).
  destruct (proj1 (valid_time_bounds _ _ _ _) Hvt) as (Hh & Hmi & Hs & _).
  destruct (zpad4_digits y ltac:(lia))
    as (y1 & y2 & y3 & y4 & Ey & Hy1 & Hy2 & Hy3 & Hy4 & Iy).
  destruct (zpad2_digits mo ltac:(lia)) as (m1 & m2 & Em & Hm1 & Hm2 & Im).
  destruct (zpad2_digits d ltac:(lia)) as (d1 & d2 & Ed & Hd1 & Hd2 & Id).
  destruct (zpad2_digits h ltac:(lia)) as (h1 & h2 & Eh & Hh1 & Hh2 & Ih).
  destruct (zpad2_digits mi ltac:(lia)) as (i1 & i2 & Ei & Hi1 & Hi2 & Ii).
  destruct (zpad2_digits s ltac:(lia)) as (s1 & s2 & Es & Hs1 & Hs2 & Is).
  destruct (zpad2_digits zh ltac:(lia)) as (a1 & a2 & Ea & Ha1 & Ha2 & Ia).
  destruct (zpad2_digits zm ltac:(lia)) as (b1 & b2 & Eb & Hb1 & Hb2 & Ib).
  destruct (ljust3_digits frac Hf Hlen) as (f1 & f2 & f3 & Ef & Hf1 & Hf2 & Hf3).
  destruct zone as [|z1 [|z2 [|c [|z3 [|z4 [|? zone]]]]]]; try discriminate.
  unfold vendor_zone in Hzone.
  apply andb_prop in Hzone as [Hzone Hz4].
  apply andb_prop in Hzone as [Hzone Hz3].
  apply andb_prop in Hzone as [Hzone Hc].
  apply andb_prop in Hzone as [Hz1 Hz2].
  apply Ascii.eqb_eq in Hc as ->.
  subst whoop_dt tz. unfold vendor_timestamp, vendor_offset.
  rewrite Ey, Em, Ed, Eh, Ei, Es, Ea, Eb. cbn [app take drop].
  pose proof (substitutions_on_vendor_text y1 y2 y3 y4 m1 m2 d1 d2 h1 h2
                i1 i2 s1 s2 frac z1 z2 z3 z4
                ((if negative then "-" else "+")%char :: [a1; a2; b1; b2])
                Hy1 Hy2 Hy3 Hy4 Hm1 Hm2 Hd1 Hd2 Hh1 Hh2 Hi1 Hi2 Hs1 Hs2
                Hf Hlen Hz1 Hz2 Hz3 Hz4)
    as Hsub.
  cbv zeta in Hsub. unfold corrected_text in Hsub.
  cbn [app take drop] in Hsub.
  split; [exact Hsub|].
  unfold convert_whoop_str_to_datetime. rewrite Hsub, Ef.
  unfold fromisoformat. cbn [app length Nat.ltb Nat.leb take drop].
  rewrite parse_isoformat_date_ok by done. cbn [rbind].
  pose proof (parse_isoformat_time_ok h1 h2 i1 i2 s1 s2 f1 f2 f3 negative
                a1 a2 b1 b2 Hh1 Hh2 Hi1 Hi2 Hs1 Hs2 Hf1 Hf2 Hf3
                Ha1 Ha2 Hb1 Hb2 ltac:(lia) ltac:(lia)) as Ht.
  cbv zeta in Ht. cbn [app] in Ht. rewrite Ht. cbn [rbind].
  rewrite Iy, Im, Id, Ih, Ii, Is, Ia, Ib, Hvd.
  pose proof (int_of_digits3_bound f1 f2 f3 Hf1 Hf2 Hf3).
  rewrite (proj2 (valid_time_bounds h mi s (int_of_digits [f1; f2; f3] * 1000)))
    by lia.
  reflexivity.
Qed.

Section Examples.


Lemma login_empty_email_witness :
  @login demo_outside "user@example.org" "secret"
    (State faked_user [] 0)
  = (Raise (AssertionError "Credentials rejected"),
     State faked_user
       [POST [Lit "https://api-7.whoop.com/"; Lit "oauth/token"]
          (login_form "user@example.org" "secret")] 0)
  /\ "user@example.org" <> "" /\ "Credentials rejected" = "Credentials rejected".
Proof.
  split; [reflexivity|].
  eapply (proj2 (@login_empty_email demo_outside "secret"
                   (State faked_user [] 0))).
  reflexivity.
Defined.




Lemma convert_whoop_str_to_datetime_vendor_witness :
  convert_whoop_str_to_datetime (of_string "2022-04-24T05:10:23.12+00:00")
    (of_string "-0700")
  = Ok (IsoDatetime 2022 4 24 5 10 23 120000 (Some (-25200000000))).
Proof.
  exact (proj2 (convert_whoop_str_to_datetime_vendor 2022 4 24 5 10 23
                  ["1"; "2"]%char (of_string "00:00") true 7 0
                  eq_refl eq_refl eq_refl ltac:(cbn; lia) eq_refl
                  ltac:(lia) ltac:(lia))).
Defined.

End Examples.

End WhoopFacts.

(** * More on the device facade *)

Module FitbitMore.
Import PyDate Text Strptime Fitbit FitbitRuns FitbitFacts MoreRuns.
Open Scope string_scope.
#[local] Open Scope list_scope.

Ltac conjs := repeat match goal with |- _ /\ _ => split end.

Section Facts.
Context `{Collaborators}.

Implicit Types (self : device) (w : world) (params : gmap string pyval).

(** A sequence that ends in [ret tt] is the sequence. *)
Lemma bind_ret_tt (m : M unit) self w :
  bind m (fun _ => ret tt) self w = m self w.
Proof. unfold bind, ret. by destruct (m self w) as [[[[]|e] d] w']. Qed.

Lemma bind_ext {A B} (m : M A) (k1 k2 : A -> M B) self w :
  (forall a d v, k1 a d v = k2 a d v) ->
  bind m k1 self w = bind m k2 self w.
Proof.
  intros E. unfold bind. by destruct (m self w) as [[[a|err] d] v].
Qed.

Lemma gen_synthetic_as_loop self w :
  _gen_synthetic self w
  = match init_params self !! "synthetic_start_date" with
    | None => (Raise (KeyError "synthetic_start_date"), self, w)
    | Some s =>
        match init_params self !! "synthetic_end_date" with
        | None => (Raise (KeyError "synthetic_end_date"), self, w)
        | Some e =>
            match create_syn_data s e (rng_state w) with
            | (inl c, g) =>
                (Raise (VendorError c), self, World g (fetch_log w))
            | (inr syn, g) =>
                store_all syn store_order self (World g (fetch_log w))
            end
        end
    end.
Proof.
  unfold _gen_synthetic, bind at 1 2 3 4, get_self, lift, getitem.
  destruct (init_params self !! "synthetic_start_date") as [s|]; [|done].
  destruct (init_params self !! "synthetic_end_date") as [e|]; [|done].
  destruct (create_syn_data s e (rng_state w)) as [[c|syn] g]; [done|].
  cbn [vendor store_order store_all].
  do 9 (apply bind_ext; intros ? ? ?).
  symmetry. apply bind_ret_tt.
Qed.

Lemma store_all_present (syn : syn_data) names self w :
  (forall k, k ∈ names -> is_Some (syn !! k)) ->
  store_all syn names self w = (Ok tt, stored syn names self, w).
Proof.
  revert self. induction names as [|k names IH]; intros self Hall; [done|].
  destruct (Hall k) as [v Ev]; [by left|].
  cbn [store_all]. erewrite bind_ok by (by apply store_ok).
  rewrite IH by (intros k' Hk'; apply Hall; by right).
  unfold stored. cbn [fold_left]. by rewrite Ev.
Qed.

Lemma store_all_missing (syn : syn_data) before name rest self w :
  (forall k, k ∈ before -> is_Some (syn !! k)) ->
  syn !! name = None ->
  store_all syn (before ++ name :: rest) self w
  = (Raise (KeyError name), stored syn before self, w).
Proof.
  revert self. induction before as [|k before IH]; intros self Hall Hn.
  - cbn [app store_all]. apply bind_raise.
    unfold store, bind, lift, getitem. by rewrite Hn.
  - destruct (Hall k) as [v Ev]; [by left|].
    cbn [app store_all]. erewrite bind_ok by (by apply store_ok).
    rewrite IH by (first [done | intros k' Hk'; apply Hall; by right]).
    unfold stored. cbn [fold_left]. by rewrite Ev.
Qed.

Lemma store_all_frame (syn : syn_data) names : forall self w,
  let after := store_all syn names self w in
  init_params after.1.2 = init_params self
  /\ valid_data_types after.1.2 = valid_data_types self
  /\ user after.1.2 = user self
  /\ authenticated after.1.2 = authenticated self
  /\ synthetic_has_been_generated after.1.2
     = synthetic_has_been_generated self
  /\ (forall name, name ∉ names ->
        attrs after.1.2 !! name = attrs self !! name)
  /\ after.2 = w.
Proof.
  induction names as [|k names IH]; intros self w; cbv zeta; [by conjs|].
  assert (store syn k self w
          = match syn !! k with
            | Some v => (Ok tt, set_attr k v self, w)
            | None => (Raise (KeyError k), self, w)
            end) as Est.
  { unfold store, bind, lift, getitem, modify_self. by destruct (syn !! k). }
  cbn [store_all]. unfold bind. rewrite Est.
  destruct (syn !! k) as [v|]; [|by conjs].
  destruct (IH (set_attr k v self) w) as (E1 & E2 & E3 & E4 & E5 & E6 & E7).
  conjs; try done.
  intros name Hout. rewrite E6 by (intros Hin; apply Hout; by right).
  cbn. apply lookup_insert_ne. intros <-. apply Hout. by left.
Qed.

Lemma store_all_attrs (syn : syn_data) names : forall self self' w,
  attrs self = attrs self' ->
  (store_all syn names self w).1.1 = (store_all syn names self' w).1.1
  /\ attrs (store_all syn names self w).1.2
     = attrs (store_all syn names self' w).1.2
  /\ (store_all syn names self w).2 = (store_all syn names self' w).2.
Proof.
  induction names as [|k names IH]; intros self self' w Ha; [done|].
  assert (forall d, store syn k d w
          = match syn !! k with
            | Some v => (Ok tt, set_attr k v d, w)
            | None => (Raise (KeyError k), d, w)
            end) as Est.
  { intros d. unfold store, bind, lift, getitem, modify_self.
    by destruct (syn !! k). }
  cbn [store_all]. unfold bind. rewrite !Est.
  destruct (syn !! k) as [v|]; [|done].
  apply IH. cbn. by rewrite Ha.
Qed.

(** X1. [_get_real] takes its window from the configuration of the
    device and never from [params]: for a device with a user it raises
    [KeyError] on the first of [start_date] and [end_date] that the
    configuration lacks, before any call to the vendor; with both present
    it calls the vendor once, with exactly the configured dates, and
    returns the vendor's answer.  The device is left as it was. *)
Theorem get_real_window data_type params self w u :
  user self = Some u ->
  (init_params self !! "start_date" = None ->
   _get_real data_type params self w
   = (Raise (KeyError "start_date"), self, w))
  /\ (forall s,
        init_params self !! "start_date" = Some s ->
        init_params self !! "end_date" = None ->
        _get_real data_type params self w
        = (Raise (KeyError "end_date"), self, w))
  /\ (forall s e,
        init_params self !! "start_date" = Some s ->
        init_params self !! "end_date" = Some e ->
        _get_real data_type params self w
        = (vendor (fetch_real_data data_type u s e), self,
           World (rng_state w)
             (fetch_log w ++ [FetchCall data_type u s e]))).
Proof.
  intros Hu. unfold _get_real, bind, get_self, lift, getitem.
  rewrite Hu. conjs.
  - by intros ->.
  - by intros s -> ->.
  - by intros s e -> ->.
Qed.

(** X2. Whatever its outcome, [_gen_synthetic] touches nothing of the
    device but the attributes named after the ten data types, and calls
    no vendor: the configuration, the supported types, the user, the two
    flags, every other attribute and the log of vendor calls are as
    before. *)
Theorem gen_synthetic_frame self w :
  let after := _gen_synthetic self w in
  init_params after.1.2 = init_params self
  /\ valid_data_types after.1.2 = valid_data_types self
  /\ user after.1.2 = user self
  /\ authenticated after.1.2 = authenticated self
  /\ synthetic_has_been_generated after.1.2
     = synthetic_has_been_generated self
  /\ (forall name, name ∉ data_types ->
        attrs after.1.2 !! name = attrs self !! name)
  /\ fetch_log after.2 = fetch_log w.
Proof.
  cbv zeta. rewrite gen_synthetic_as_loop.
  destruct (init_params self !! "synthetic_start_date") as [s|]; [|by conjs].
  destruct (init_params self !! "synthetic_end_date") as [e|]; [|by conjs].
  destruct (create_syn_data s e (rng_state w)) as [[c|syn] g]; [by conjs|].
  destruct (store_all_frame syn store_order self (World g (fetch_log w)))
    as (E1 & E2 & E3 & E4 & E5 & E6 & E7).
  rewrite E7. conjs; try done.
  intros name Hout. apply E6. intros Hin. apply Hout.
  unfold store_order in Hin. unfold data_types.
  repeat (apply elem_of_cons in Hin as [->|Hin]; [in_list|]).
  by apply elem_of_nil in Hin.
Qed.

(** X3. [_gen_synthetic] assigns the series one after the other, in the
    order of its ten assignments.  When the generator's answer holds all
    ten, all ten are assigned.  When it lacks one, [KeyError] is raised for
    the first one it lacks, and the series before it in that order are
    already assigned: the device is left half updated. *)
Theorem gen_synthetic_stores_in_order self w s e (syn : syn_data) g :
  init_params self !! "synthetic_start_date" = Some s ->
  init_params self !! "synthetic_end_date" = Some e ->
  create_syn_data s e (rng_state w) = (inr syn, g) ->
  ((forall k, k ∈ store_order -> is_Some (syn !! k)) ->
   _gen_synthetic self w
   = (Ok tt, stored syn store_order self, World g (fetch_log w)))
  /\ (forall before name rest,
        store_order = before ++ name :: rest ->
        (forall k, k ∈ before -> is_Some (syn !! k)) ->
        syn !! name = None ->
        _gen_synthetic self w
        = (Raise (KeyError name), stored syn before self,
           World g (fetch_log w))).
Proof.
  intros Hs He Hc. rewrite gen_synthetic_as_loop, Hs, He, Hc.
  split.
  - apply store_all_present.
  - intros before name rest ->. apply store_all_missing.
Qed.

(** X4. [_filter_synthetic] succeeds exactly when the synthetic start
    date of the configuration and the two dates of the window are present
    and are dates in the [%Y-%m-%d] format, and then it returns the series
    it was given, whole, wherever the window lies; the exception it raises
    otherwise depends neither on the series nor on the data type. *)
Theorem filter_synthetic_succeeds_iff self (data data' r : series)
    data_type data_type' params :
  (_filter_synthetic self data data_type params = Ok r <->
   r = data
   /\ exists s p1 p2 t0 t1 t2,
        init_params self !! "synthetic_start_date" = Some s
        /\ date_str_to_obj s = Ok t0
        /\ params !! "start_date" = Some p1
        /\ date_str_to_obj p1 = Ok t1
        /\ params !! "end_date" = Some p2
        /\ date_str_to_obj p2 = Ok t2)
  /\ (forall e,
        _filter_synthetic self data data_type params = Raise e <->
        _filter_synthetic self data' data_type' params = Raise e).
Proof.
  split.
  - unfold _filter_synthetic, getitem. split.
    + destruct (init_params self !! "synthetic_start_date") as [s|];
        [cbn [rbind]|done].
      destruct (date_str_to_obj s) as [t0|] eqn:E0; [cbn [rbind]|done].
      destruct (params !! "start_date") as [p1|]; [cbn [rbind]|done].
      destruct (date_str_to_obj p1) as [t1|] eqn:E1; [cbn [rbind]|done].
      destruct (params !! "end_date") as [p2|]; [cbn [rbind]|done].
      destruct (date_str_to_obj p2) as [t2|] eqn:E2; [cbn [rbind]|done].
      intros [= <-]. split; [done|]. by exists s, p1, p2, t0, t1, t2.
    + intros (-> & s & p1 & p2 & t0 & t1 & t2 & -> & E0 & -> & E1 & -> & E2).
      cbn [rbind]. rewrite E0. cbn [rbind]. rewrite E1. cbn [rbind].
      by rewrite E2.
  - intros e. rewrite !filter_synthetic_unfold.
    by destruct (filter_indices self params).
Qed.

(** X5. Of the configuration, [_gen_synthetic] reads the two synthetic
    dates only: on two devices that agree on these two dates and on their
    attributes, in the same world, it has the same outcome, stores the same
    attributes and leaves the same world, whatever else the configurations
    hold (the seed among them). *)
Theorem gen_synthetic_reads_dates_only self self' w :
  init_params self !! "synthetic_start_date"
  = init_params self' !! "synthetic_start_date" ->
  init_params self !! "synthetic_end_date"
  = init_params self' !! "synthetic_end_date" ->
  attrs self = attrs self' ->
  (_gen_synthetic self w).1.1 = (_gen_synthetic self' w).1.1
  /\ attrs (_gen_synthetic self w).1.2 = attrs (_gen_synthetic self' w).1.2
  /\ (_gen_synthetic self w).2 = (_gen_synthetic self' w).2.
Proof.
  intros Hs He Ha. rewrite !gen_synthetic_as_loop, <- Hs, <- He.
  destruct (init_params self !! "synthetic_start_date") as [s|]; [|done].
  destruct (init_params self !! "synthetic_end_date") as [e|]; [|done].
  destruct (create_syn_data s e (rng_state w)) as [[c|syn] g]; [done|].
  by apply store_all_attrs.
Qed.

End Facts.

Section Examples.

Lemma get_real_window_witness :
  _get_real (H := demo) "steps" (window "2022-05-01" "2022-05-02")
    march_device_real demo_world
  = (Raise (KeyError "start_date"), march_device_real, demo_world)
  /\ _get_real (H := demo) "steps" (window "2022-05-01" "2022-05-02")
       configured_device demo_world
     = (Ok [], configured_device,
        @World demo (0 : Z)
          [@FetchCall demo "steps" "u" (VStr "2022-04-01")
             (VStr "2022-04-02")]).
Proof.
  split.
  - by apply (proj1 (get_real_window (H := demo) "steps"
                       (window "2022-05-01" "2022-05-02")
                       march_device_real demo_world "u" eq_refl)).
  - by apply (proj2 (proj2 (get_real_window (H := demo) "steps"
                              (window "2022-05-01" "2022-05-02")
                              configured_device demo_world "u" eq_refl))).
Defined.

Lemma gen_synthetic_stores_in_order_witness :
  _gen_synthetic (H := sleep_only) sleep_only_device sleep_only_world
  = (Raise (KeyError "steps"),
     set_attr (H := sleep_only) "sleep" march_series sleep_only_device,
     @World sleep_only (1 : Z) []).
Proof.
  apply (proj2 (gen_synthetic_stores_in_order (H := sleep_only)
                  sleep_only_device sleep_only_world
                  (VStr "2022-03-01") (VStr "2022-03-05")
                  (<["sleep" := march_series]> ∅) (1 : Z)
                  eq_refl eq_refl eq_refl)
           ["sleep"] "steps"
           ["minutesVeryActive"; "minutesFairlyActive";
            "minutesLightlyActive"; "distance"; "minutesSedentary";
            "heart_rate_day"; "hrv"; "distance_day"]).
  - reflexivity.
  - intros k Hk. apply elem_of_cons in Hk as [->|Hk]; [by eexists|].
    by apply elem_of_nil in Hk.
  - reflexivity.
Defined.

Lemma filter_synthetic_succeeds_iff_witness :
  _filter_synthetic (H := demo) march_device march_series "steps"
    (window "2022-03-04" "2022-03-02")
  = Ok march_series.
Proof.
  apply (proj1 (filter_synthetic_succeeds_iff (H := demo) march_device
                  march_series [] march_series "steps" "hrv"
                  (window "2022-03-04" "2022-03-02"))).
  split; [reflexivity|].
  exists (VStr "2022-03-01"), (VStr "2022-03-04"), (VStr "2022-03-02"),
    (midnight 2022 3 1), (midnight 2022 3 4), (midnight 2022 3 2).
  conjs; reflexivity.
Defined.

Lemma gen_synthetic_reads_dates_only_witness :
  (_gen_synthetic (H := demo) march_device demo_world).1.1
  = (_gen_synthetic (H := demo) reseeded_device demo_world).1.1
  /\ attrs (_gen_synthetic (H := demo) march_device demo_world).1.2
     = attrs (_gen_synthetic (H := demo) reseeded_device demo_world).1.2
  /\ (_gen_synthetic (H := demo) march_device demo_world).2
     = (_gen_synthetic (H := demo) reseeded_device demo_world).2.
Proof.
  apply (gen_synthetic_reads_dates_only (H := demo) march_device
           reseeded_device demo_world); reflexivity.
Defined.

End Examples.

End FitbitMore.

(** * More on the vendor client *)

Module WhoopMore.
Import PyDate Text Strptime Whoop WhoopRuns WhoopFacts MoreRuns.
Open Scope string_scope.
#[local] Open Scope Z_scope.
#[local] Open Scope list_scope.

(** ** The calendar, and the two formats of the windows *)

Lemma is_leap_spec y :
  is_leap y = true <-> (y mod 4 = 0 /\ (y mod 100 <> 0 \/ y mod 400 = 0)).
Proof.
  unfold is_leap.
  rewrite andb_true_iff, orb_true_iff, negb_true_iff, !Z.eqb_eq, Z.eqb_neq.
  tauto.
Qed.

Lemma days_before_year_step y :
  days_before_year (y + 1)
  = days_before_year y + (if is_leap y then 366 else 365).
Proof.
  destruct (is_leap y) eqn:El.
  - apply is_leap_spec in El. unfold days_before_year. cbv zeta.
    replace (y + 1 - 1) with y by lia.
    Z.div_mod_to_equations. lia.
  - assert (~ (y mod 4 = 0 /\ (y mod 100 <> 0 \/ y mod 400 = 0))) as Hn.
    { intros Hl. apply is_leap_spec in Hl. congruence. }
    unfold days_before_year. cbv zeta.
    replace (y + 1 - 1) with y by lia.
    Z.div_mod_to_equations. lia.
Qed.

Lemma days_before_year_mono a b :
  a <= b -> days_before_year a <= days_before_year b.
Proof.
  intros Hab. unfold days_before_year. cbv zeta.
  Z.div_mod_to_equations. lia.
Qed.

Lemma year_estimate n :
  days_before_year (n * 400 / 146097 + 1 - 2) <= n
  < days_before_year (n * 400 / 146097 + 1 + 2 + 1).
Proof.
  unfold days_before_year. cbv zeta.
  Z.div_mod_to_equations. lia.
Qed.

Lemma year_of_day_spec fuel : forall y0 n,
  days_before_year (y0 - Z.of_nat fuel) <= n
  < days_before_year (y0 + Z.of_nat fuel + 1) ->
  days_before_year (year_of_day fuel y0 n) <= n
  < days_before_year (year_of_day fuel y0 n + 1).
Proof.
  induction fuel as [|f IH]; intros y0 n Hn.
  - cbn [year_of_day]. by replace (y0 - Z.of_nat 0) with y0 in Hn by lia;
      replace (y0 + Z.of_nat 0 + 1) with (y0 + 1) in Hn by lia.
  - cbn [year_of_day].
    destruct (n <? days_before_year y0) eqn:E1.
    { apply Z.ltb_lt in E1. apply IH.
      replace (y0 - 1 - Z.of_nat f) with (y0 - Z.of_nat (S f)) by lia.
      pose proof (days_before_year_mono y0 (y0 - 1 + Z.of_nat f + 1)
                    ltac:(lia)).
      lia. }
    apply Z.ltb_ge in E1.
    destruct (days_before_year (y0 + 1) <=? n) eqn:E2.
    { apply Z.leb_le in E2. apply IH.
      replace (y0 + 1 + Z.of_nat f + 1) with (y0 + Z.of_nat (S f) + 1) by lia.
      pose proof (days_before_year_mono (y0 + 1 - Z.of_nat f) (y0 + 1)
                    ltac:(lia)).
      lia. }
    apply Z.leb_gt in E2. lia.
Qed.

Lemma year_of_ordinal n :
  0 <= n < MAXORDINAL ->
  let y := year_of_day 4 (n * 400 / 146097 + 1) n in
  1 <= y <= 9999
  /\ 0 <= n - days_before_year y < (if is_leap y then 366 else 365).
Proof.
  intros Hn y.
  assert (days_before_year y <= n < days_before_year (y + 1)) as Hy.
  { apply year_of_day_spec.
    pose proof (year_estimate n) as He.
    pose proof (days_before_year_mono (n * 400 / 146097 + 1 - Z.of_nat 4)
                  (n * 400 / 146097 + 1 - 2) ltac:(lia)).
    pose proof (days_before_year_mono (n * 400 / 146097 + 1 + 2 + 1)
                  (n * 400 / 146097 + 1 + Z.of_nat 4 + 1) ltac:(lia)).
    lia. }
  clearbody y. rewrite days_before_year_step in Hy.
  split; [|lia].
  assert (days_before_year 1 = 0) as E1 by reflexivity.
  assert (days_before_year 10000 = MAXORDINAL) as E2 by reflexivity.
  split.
  - destruct (Z.le_gt_cases 1 y) as [|Hlt]; [done|].
    pose proof (days_before_year_mono (y + 1) 1 ltac:(lia)).
    rewrite days_before_year_step in H. lia.
  - destruct (Z.le_gt_cases y 9999) as [|Hgt]; [done|].
    pose proof (days_before_year_mono 10000 y ltac:(lia)). lia.
Qed.

Lemma days_before_month_step y m :
  1 <= m ->
  days_before_month y (m + 1) = days_before_month y m + days_in_month y m.
Proof.
  intros Hm. unfold days_before_month.
  replace (Z.to_nat (m + 1 - 1)) with (S (Z.to_nat (m - 1))) by lia.
  rewrite seq_S, !map_app, fold_right_app. cbn [map fold_right].
  replace (Z.of_nat (1 + Z.to_nat (m - 1))) with m by lia.
  generalize (map (days_in_month y) (map Z.of_nat (seq 1 (Z.to_nat (m - 1))))).
  intros l. induction l as [|x l IH]; cbn [fold_right]; lia.
Qed.

Lemma month_of_day_scan y fuel : forall m n,
  1 <= m -> 0 <= n ->
  days_before_month y m + n < days_before_month y (m + Z.of_nat fuel) ->
  let md := month_of_day fuel y m n in
  m <= md.1 < m + Z.of_nat fuel
  /\ 0 <= md.2 < days_in_month y md.1
  /\ days_before_month y md.1 + md.2 = days_before_month y m + n.
Proof.
  induction fuel as [|f IH]; intros m n Hm Hn Hlt; cbv zeta.
  - replace (m + Z.of_nat 0) with m in Hlt by lia. lia.
  - cbn [month_of_day].
    destruct (n <? days_in_month y m) eqn:E.
    + apply Z.ltb_lt in E. cbn [fst snd]. lia.
    + apply Z.ltb_ge in E.
      pose proof (days_before_month_step y m Hm) as Hs.
      destruct (IH (m + 1) (n - days_in_month y m)) as (H1 & H2 & H3);
        [lia|lia| |].
      * replace (m + 1 + Z.of_nat f) with (m + Z.of_nat (S f)) by lia. lia.
      * split; [lia|]. split; [done|]. lia.
Qed.

Lemma month_of_day_spec y r :
  0 <= r < (if is_leap y then 366 else 365) ->
  let md := month_of_day 12 y 1 r in
  1 <= md.1 <= 12
  /\ 0 <= md.2 < days_in_month y md.1
  /\ days_before_month y md.1 + md.2 = r.
Proof.
  intros Hr.
  assert (days_before_month y 13 = if is_leap y then 366 else 365) as E13.
  { unfold days_before_month, days_in_month. cbn.
    by destruct (is_leap y). }
  assert (days_before_month y 1 = 0) as E1 by reflexivity.
  destruct (month_of_day_scan y 12 1 r) as (H1 & H2 & H3); [lia|lia| |].
  - change (1 + Z.of_nat 12) with 13. lia.
  - cbv zeta. split; [lia|]. split; [done|]. lia.
Qed.

(** [ord2ymd] inverts [ymd2ord] on the days of the calendar. *)
Lemma ord2ymd_spec n :
  0 <= n < MAXORDINAL ->
  let '(y, m, d) := ord2ymd n in
  valid_date y m d = true /\ ymd2ord y m d = n + 1.
Proof.
  intros Hn. unfold ord2ymd. cbv zeta.
  destruct (year_of_ordinal n Hn) as (Hy & Hr). cbv zeta in Hy, Hr.
  set (y := year_of_day 4 (n * 400 / 146097 + 1) n) in *.
  destruct (month_of_day_spec y (n - days_before_year y) Hr)
    as (Hm & Hd & Hs). cbv zeta in Hm, Hd, Hs.
  destruct (month_of_day 12 y 1 (n - days_before_year y)) as [m d].
  cbn [fst snd] in *. split.
  - unfold valid_date, MINYEAR, MAXYEAR.
    rewrite !andb_true_iff, !Z.leb_le. lia.
  - unfold ymd2ord. lia.
Qed.

(** The first match of a sequence is the first match of its parts. *)
Lemma hd_bind {A B} (p : rx A) (k : A -> rx B) s a r x :
  hd_error (p s) = Some (a, r) ->
  hd_error (k a r) = Some x ->
  hd_error (rx_bind p k s) = Some x.
Proof.
  unfold rx_bind. destruct (p s) as [|[a' r'] l]; [done|].
  intros [= -> ->]. cbn [flat_map fst snd].
  by destruct (k a r).
Qed.

Lemma hd_alt_first {A} (p q : rx A) s x :
  hd_error (p s) = Some x -> hd_error (rx_alt p q s) = Some x.
Proof. unfold rx_alt. by destruct (p s). Qed.

Lemma hd_alt_second {A} (p q : rx A) s x :
  p s = [] -> hd_error (q s) = Some x -> hd_error (rx_alt p q s) = Some x.
Proof. unfold rx_alt. by intros ->. Qed.

Lemma whole_match_hd {A} (p : rx A) s a :
  hd_error (p s) = Some (a, []) -> whole_match p s = Ok a.
Proof.
  unfold whole_match. destruct (p s) as [|[a' r'] l]; [done|].
  by intros [= -> ->].
Qed.

Lemma rx_digit_char lo hi a r :
  0 <= a < 10 ->
  rx_digit lo hi (digit_char a :: r)
  = if (lo <=? a) && (a <=? hi) then [(a, r)] else [].
Proof.
  intros Ha. unfold rx_digit.
  by rewrite is_digit_digit_char, digit_val_digit_char by done.
Qed.

Lemma rx_two_hit lo1 hi1 lo2 hi2 a b r :
  0 <= a < 10 -> 0 <= b < 10 -> lo1 <= a <= hi1 -> lo2 <= b <= hi2 ->
  rx_two lo1 hi1 lo2 hi2 (digit_char a :: digit_char b :: r)
  = [(10 * a + b, r)].
Proof.
  intros Ha Hb H1 H2. unfold rx_two, rx_bind, rx_ret.
  rewrite rx_digit_char by done.
  rewrite (proj2 (andb_true_iff _ _)) by (rewrite !Z.leb_le; lia).
  cbn [flat_map fst snd]. rewrite rx_digit_char by done.
  rewrite (proj2 (andb_true_iff _ _)) by (rewrite !Z.leb_le; lia).
  reflexivity.
Qed.

Lemma rx_two_miss lo1 hi1 lo2 hi2 a r :
  0 <= a < 10 -> ~ lo1 <= a <= hi1 ->
  rx_two lo1 hi1 lo2 hi2 (digit_char a :: r) = [].
Proof.
  intros Ha H1. unfold rx_two, rx_bind.
  rewrite rx_digit_char by done.
  destruct ((lo1 <=? a) && (a <=? hi1)) eqn:E; [|done].
  apply andb_true_iff in E. rewrite !Z.leb_le in E. lia.
Qed.

Lemma rx_lit_hit c cs r :
  existsb (Ascii.eqb c) cs = true -> rx_lit cs (c :: r) = [(tt, r)].
Proof. intros E. unfold rx_lit. by rewrite E. Qed.

(** A number under a hundred, from its two digits. *)
Lemma two_digits n :
  0 <= n < 100 ->
  0 <= n / 10 mod 10 < 10 /\ 0 <= n mod 10 < 10
  /\ 10 * (n / 10 mod 10) + n mod 10 = n /\ n / 10 mod 10 = n / 10.
Proof. intros Hn. Z.div_mod_to_equations. lia. Qed.

Lemma hd_rx_m n r :
  1 <= n <= 12 ->
  hd_error (rx_m (digit_char (n / 10 mod 10) :: digit_char (n mod 10) :: r))
  = Some (n, r).
Proof.
  intros Hn. destruct (two_digits n ltac:(lia)) as (H1 & H2 & H3 & H4).
  rewrite <- H3 at 3. unfold rx_m.
  destruct (Z.le_gt_cases 10 n).
  - apply hd_alt_first. rewrite rx_two_hit; [done|done|done|..];
      Z.div_mod_to_equations; lia.
  - apply hd_alt_second.
    { apply rx_two_miss; [done|]. Z.div_mod_to_equations; lia. }
    apply hd_alt_first. rewrite rx_two_hit; [done|done|done|..];
      Z.div_mod_to_equations; lia.
Qed.

Lemma hd_rx_d n r :
  1 <= n <= 31 ->
  hd_error (rx_d (digit_char (n / 10 mod 10) :: digit_char (n mod 10) :: r))
  = Some (n, r).
Proof.
  intros Hn. destruct (two_digits n ltac:(lia)) as (H1 & H2 & H3 & H4).
  rewrite <- H3 at 3. unfold rx_d.
  destruct (Z.le_gt_cases 30 n).
  { apply hd_alt_first. rewrite rx_two_hit; [done|done|done|..];
      Z.div_mod_to_equations; lia. }
  apply hd_alt_second.
  { apply rx_two_miss; [done|]. Z.div_mod_to_equations; lia. }
  destruct (Z.le_gt_cases 10 n).
  { apply hd_alt_first. rewrite rx_two_hit; [done|done|done|..];
      Z.div_mod_to_equations; lia. }
  apply hd_alt_second.
  { apply rx_two_miss; [done|]. Z.div_mod_to_equations; lia. }
  apply hd_alt_first. rewrite rx_two_hit; [done|done|done|..];
    Z.div_mod_to_equations; lia.
Qed.

Lemma hd_rx_H n r :
  0 <= n <= 23 ->
  hd_error (rx_H (digit_char (n / 10 mod 10) :: digit_char (n mod 10) :: r))
  = Some (n, r).
Proof.
  intros Hn. destruct (two_digits n ltac:(lia)) as (H1 & H2 & H3 & H4).
  rewrite <- H3 at 3. unfold rx_H.
  destruct (Z.le_gt_cases 20 n).
  { apply hd_alt_first. rewrite rx_two_hit; [done|done|done|..];
      Z.div_mod_to_equations; lia. }
  apply hd_alt_second.
  { apply rx_two_miss; [done|]. Z.div_mod_to_equations; lia. }
  apply hd_alt_first. rewrite rx_two_hit; [done|done|done|..];
    Z.div_mod_to_equations; lia.
Qed.

Lemma hd_rx_M n r :
  0 <= n <= 59 ->
  hd_error (rx_M (digit_char (n / 10 mod 10) :: digit_char (n mod 10) :: r))
  = Some (n, r).
Proof.
  intros Hn. destruct (two_digits n ltac:(lia)) as (H1 & H2 & H3 & H4).
  rewrite <- H3 at 3. unfold rx_M.
  apply hd_alt_first. rewrite rx_two_hit; [done|done|done|..];
    Z.div_mod_to_equations; lia.
Qed.

Lemma hd_rx_S n r :
  0 <= n <= 59 ->
  hd_error (rx_S (digit_char (n / 10 mod 10) :: digit_char (n mod 10) :: r))
  = Some (n, r).
Proof.
  intros Hn. destruct (two_digits n ltac:(lia)) as (H1 & H2 & H3 & H4).
  rewrite <- H3 at 3. unfold rx_S.
  apply hd_alt_second.
  { apply rx_two_miss; [done|]. Z.div_mod_to_equations; lia. }
  apply hd_alt_first. rewrite rx_two_hit; [done|done|done|..];
    Z.div_mod_to_equations; lia.
Qed.

Lemma hd_rx_Y n r :
  0 <= n <= 9999 ->
  hd_error
    (rx_Y (digit_char (n / 10 / 10 / 10 mod 10)
           :: digit_char (n / 10 / 10 mod 10)
           :: digit_char (n / 10 mod 10) :: digit_char (n mod 10) :: r))
  = Some (n, r).
Proof.
  intros Hn. unfold rx_Y, rx_bind, rx_ret.
  assert (forall k, 0 <= k mod 10 < 10) as Hm
    by (intros k; apply Z.mod_pos_bound; lia).
  rewrite rx_digit_char by done.
  rewrite (proj2 (andb_true_iff _ _))
    by (rewrite !Z.leb_le; specialize (Hm (n / 10 / 10 / 10)); lia).
  cbn [flat_map fst snd]. rewrite rx_digit_char by done.
  rewrite (proj2 (andb_true_iff _ _))
    by (rewrite !Z.leb_le; specialize (Hm (n / 10 / 10)); lia).
  cbn [flat_map fst snd]. rewrite rx_digit_char by done.
  rewrite (proj2 (andb_true_iff _ _))
    by (rewrite !Z.leb_le; specialize (Hm (n / 10)); lia).
  cbn [flat_map fst snd]. rewrite rx_digit_char by done.
  rewrite (proj2 (andb_true_iff _ _))
    by (rewrite !Z.leb_le; specialize (Hm n); lia).
  cbn [flat_map fst snd app hd_error]. do 2 f_equal.
  f_equal. Z.div_mod_to_equations. lia.
Qed.

Lemma before_first_cons sep c r :
  Ascii.eqb c sep = false ->
  before_first sep (c :: r) = c :: before_first sep r.
Proof. intros E. cbn [before_first]. by rewrite E. Qed.

Lemma digit_char_not_point k :
  Ascii.eqb (digit_char (k mod 10)) "." = false.
Proof.
  apply digit_eqb_point, is_digit_digit_char, Z.mod_pos_bound. lia.
Qed.

(** The time of day of a datetime, from its seconds. *)
Lemma time_of_day secs :
  0 <= secs < 86400 ->
  0 <= secs / 3600 <= 23 /\ 0 <= secs / 60 mod 60 <= 59
  /\ 0 <= secs mod 60 <= 59
  /\ (secs / 3600 * 60 + secs / 60 mod 60) * 60 + secs mod 60 = secs.
Proof. intros Hs. Z.div_mod_to_equations. lia. Qed.

(** What [strftime] prints with the format of the windows, [strptime]
    reads back with the format of the bounds. *)
Lemma strptime_reads_strftime t :
  0 <= t < datetime_max ->
  t mod US_PER_SECOND = 0 ->
  strptime_ymdThms (before_first "." (strftime_iso_000Z t)) = Ok t.
Proof.
  intros Ht Hsec. unfold strftime_iso_000Z.
  assert (0 <= t / US_PER_DAY < MAXORDINAL) as Hn.
  { unfold datetime_max, US_PER_DAY, US_PER_SECOND in *.
    Z.div_mod_to_equations. lia. }
  pose proof (ord2ymd_spec (t / US_PER_DAY) Hn) as Hord.
  destruct (ord2ymd (t / US_PER_DAY)) as [[y m] d].
  destruct Hord as [Hv Ho].
  destruct (valid_date_bounds _ _ _ Hv) as (Hy & Hm & Hd).
  set (secs := t mod US_PER_DAY / US_PER_SECOND).
  assert (0 <= secs < 86400) as Hsecs.
  { subst secs. unfold US_PER_DAY, US_PER_SECOND.
    Z.div_mod_to_equations. lia. }
  destruct (time_of_day secs Hsecs) as (Hh & Hmi & Hs & Esecs).
  cbn [zpad app of_string list_ascii_of_string].
  rewrite !before_first_cons
    by (first [reflexivity | apply digit_char_not_point]).
  cbn [before_first Ascii.eqb Bool.eqb].
  unfold strptime_ymdThms.
  erewrite whole_match_hd; last first.
  { eapply hd_bind; [by apply hd_rx_Y; lia|cbv beta].
    eapply hd_bind; [reflexivity|cbv beta].
    eapply hd_bind; [by apply hd_rx_m|cbv beta].
    eapply hd_bind; [reflexivity|cbv beta].
    eapply hd_bind; [by apply hd_rx_d|cbv beta].
    eapply hd_bind; [reflexivity|cbv beta].
    eapply hd_bind; [by apply hd_rx_H|cbv beta].
    eapply hd_bind; [reflexivity|cbv beta].
    eapply hd_bind; [by apply hd_rx_M|cbv beta].
    eapply hd_bind; [reflexivity|cbv beta].
    eapply hd_bind; [by apply hd_rx_S|cbv beta].
    reflexivity. }
  cbn [rbind]. unfold mk_datetime. rewrite Hv.
  rewrite (proj2 (valid_time_bounds _ _ _ 0)) by lia.
  cbn [andb]. f_equal. rewrite Ho, Esecs. subst secs.
  unfold US_PER_DAY, US_PER_SECOND in *. Z.div_mod_to_equations. lia.
Qed.

(** ** Timestamps with a full fraction *)

(** A fraction of three digits is matched and put back as it is. *)
Lemma re_sub_fraction_full frac z1 z2 z3 z4 :
  forallb is_digit frac = true -> length frac = 3%nat ->
  is_digit z1 = true -> is_digit z2 = true ->
  is_digit z3 = true -> is_digit z4 = true ->
  re_sub match_fraction zero_pad_microseconds 0
    ("."%char :: frac ++ "+"%char :: [z1; z2; ":"%char; z3; z4])
  = "."%char :: frac ++ "+"%char :: [z1; z2; ":"%char; z3; z4].
Proof.
  intros Hf Hlen Hz1 Hz2 Hz3 Hz4.
  assert (re_sub match_fraction zero_pad_microseconds 0
            [z1; z2; ":"%char; z3; z4] = [z1; z2; ":"%char; z3; z4]) as Ez.
  { rewrite <- (app_nil_r [z1; z2; ":"%char; z3; z4]) at 1.
    rewrite re_sub_skip_all; [by rewrite app_nil_r|].
    intros c r Hc. apply match_fraction_other.
    repeat (apply elem_of_cons in Hc as [->|Hc];
            [first [reflexivity | by apply digit_not_point]|]).
    by apply elem_of_nil in Hc. }
  destruct frac as [|f1 [|f2 [|f3 [|f4 frac]]]]; try discriminate Hlen.
  cbn [forallb] in Hf.
  apply andb_true_iff in Hf as [Hf1 Hf]. apply andb_true_iff in Hf as [Hf2 Hf].
  apply andb_true_iff in Hf as [Hf3 _].
  assert (match_fraction
            ("."%char :: [f1; f2; f3] ++ "+"%char
             :: [z1; z2; ":"%char; z3; z4])
          = Some ([f1; f2; f3], 5%nat)) as Em.
  { unfold match_fraction, digits_then_plus.
    cbn [Ascii.eqb Bool.eqb app take drop length Nat.eqb forallb andb].
    rewrite Hf1, Hf2, Hf3. reflexivity. }
  cbn [re_sub]. rewrite Em. cbn [Nat.sub].
  change ([f1; f2; f3] ++ "+"%char :: [z1; z2; ":"%char; z3; z4])
    with ([f1; f2; f3; "+"%char] ++ [z1; z2; ":"%char; z3; z4]).
  change 4%nat with (length [f1; f2; f3; "+"%char]).
  rewrite re_sub_pass, Ez. reflexivity.
Qed.

Lemma substitutions_on_full_fraction
    y1 y2 y3 y4 m1 m2 d1 d2 h1 h2 i1 i2 s1 s2 frac z1 z2 z3 z4 tz :
  is_digit y1 = true -> is_digit y2 = true -> is_digit y3 = true ->
  is_digit y4 = true -> is_digit m1 = true -> is_digit m2 = true ->
  is_digit d1 = true -> is_digit d2 = true -> is_digit h1 = true ->
  is_digit h2 = true -> is_digit i1 = true -> is_digit i2 = true ->
  is_digit s1 = true -> is_digit s2 = true ->
  forallb is_digit frac = true -> length frac = 3%nat ->
  is_digit z1 = true -> is_digit z2 = true ->
  is_digit z3 = true -> is_digit z4 = true ->
  let date_time :=
    [y1; y2; y3; y4; "-"; m1; m2; "-"; d1; d2; "T"; h1; h2; ":"; i1; i2; ":";
     s1; s2]%char in
  let whoop_dt :=
    date_time ++ "."%char :: frac ++ "+"%char :: [z1; z2; ":"%char; z3; z4] in
  re_sub match_fraction zero_pad_microseconds 0 whoop_dt = whoop_dt
  /\ re_sub match_tz (correct_tz tz) 0 whoop_dt
     = date_time ++ "."%char :: frac ++ take 3 tz ++ ":"%char :: drop 3 tz.
Proof.
  intros Hy1 Hy2 Hy3 Hy4 Hm1 Hm2 Hd1 Hd2 Hh1 Hh2 Hi1 Hi2 Hs1 Hs2 Hf Hlen
    Hz1 Hz2 Hz3 Hz4 date_time whoop_dt.
  subst date_time whoop_dt. cbn [app]. split.
  - repeat (rewrite (re_sub_skip match_fraction) by not_point).
    by rewrite re_sub_fraction_full.
  - repeat (rewrite (re_sub_skip match_tz) by not_zone).
    rewrite (re_sub_skip_all match_tz); last first.
    { intros c r Hc. apply match_tz_other, digit_not_sign.
      by eapply forallb_digit_elem. }
    assert (match_tz ("+"%char :: [z1; z2; ":"%char; z3; z4])
            = Some ("+"%char :: [z1; z2; ":"%char; z3; z4], 6%nat)) as Em.
    { unfold match_tz. by rewrite Hz1, Hz2, Hz3, Hz4. }
    cbn [re_sub]. rewrite Em. cbn [Nat.sub re_sub].
    unfold correct_tz. by rewrite app_nil_r.
Qed.

(** X17. A vendor timestamp whose fraction has its three digits is left
    as it is by the padding; the zone is replaced by the offset field with
    a colon put in, and the datetime read has the date and time of the
    timestamp, the fraction as milliseconds and the offset of the field. *)
Theorem convert_whoop_str_to_datetime_full_fraction
    y mo d h mi s frac zone (negative : bool) zh zm :
  valid_date y mo d = true -> valid_time h mi s 0 = true ->
  forallb is_digit frac = true -> length frac = 3%nat ->
  vendor_zone zone = true ->
  0 <= zh <= 23 -> 0 <= zm <= 59 ->
  let whoop_dt := vendor_timestamp y mo d h mi s frac zone in
  let tz := vendor_offset negative zh zm in
  let offset := (zh * 60 + zm) * 60 * US_PER_SECOND in
  re_sub match_fraction zero_pad_microseconds 0 whoop_dt = whoop_dt
  /\ convert_whoop_str_to_datetime whoop_dt tz
     = Ok (IsoDatetime y mo d h mi s (int_of_digits frac * 1000)
             (Some (if negative then - offset else offset))).
Proof.
  intros Hvd Hvt Hf Hlen Hzone Hzh Hzm whoop_dt tz offset.
  destruct (valid_date_bounds _ _ _ Hvd) as (Hy & Hmo & Hd).
  destruct (proj1 (valid_time_bounds _ _ _ _) Hvt) as (Hh & Hmi & Hs & _).
  destruct (zpad4_digits y ltac:(lia))
    as (y1 & y2 & y3 & y4 & Ey & Hy1 & Hy2 & Hy3 & Hy4 & Iy).
  destruct (zpad2_digits mo ltac:(lia)) as (m1 & m2 & Em & Hm1 & Hm2 & Im).
  destruct (zpad2_digits d ltac:(lia)) as (d1 & d2 & Ed & Hd1 & Hd2 & Id).
  destruct (zpad2_digits h ltac:(lia)) as (h1 & h2 & Eh & Hh1 & Hh2 & Ih).
  destruct (zpad2_digits mi ltac:(lia)) as (i1 & i2 & Ei & Hi1 & Hi2 & Ii).
  destruct (zpad2_digits s ltac:(lia)) as (s1 & s2 & Es & Hs1 & Hs2 & Is).
  destruct (zpad2_digits zh ltac:(lia)) as (a1 & a2 & Ea & Ha1 & Ha2 & Ia).
  destruct (zpad2_digits zm ltac:(lia)) as (b1 & b2 & Eb & Hb1 & Hb2 & Ib).
  destruct zone as [|z1 [|z2 [|c [|z3 [|z4 [|? zone]]]]]]; try discriminate.
  unfold vendor_zone in Hzone.
  apply andb_prop in Hzone as [Hzone Hz4].
  apply andb_prop in Hzone as [Hzone Hz3].
  apply andb_prop in Hzone as [Hzone Hc].
  apply andb_prop in Hzone as [Hz1 Hz2].
  apply Ascii.eqb_eq in Hc as ->.
  subst whoop_dt tz. unfold vendor_timestamp, vendor_offset.
  rewrite Ey, Em, Ed, Eh, Ei, Es, Ea, Eb. cbn [app take drop].
  destruct (substitutions_on_full_fraction y1 y2 y3 y4 m1 m2 d1 d2 h1 h2
              i1 i2 s1 s2 frac z1 z2 z3 z4
              ((if negative then "-" else "+")%char :: [a1; a2; b1; b2])
              Hy1 Hy2 Hy3 Hy4 Hm1 Hm2 Hd1 Hd2 Hh1 Hh2 Hi1 Hi2 Hs1 Hs2
              Hf Hlen Hz1 Hz2 Hz3 Hz4)
    as [Hpad Hsub].
  cbn [app take drop] in Hpad, Hsub.
  split; [exact Hpad|].
  unfold convert_whoop_str_to_datetime. rewrite Hpad, Hsub.
  destruct frac as [|f1 [|f2 [|f3 [|f4 frac]]]]; try discriminate Hlen.
  cbn [forallb] in Hf.
  apply andb_true_iff in Hf as [Hf1 Hf]. apply andb_true_iff in Hf as [Hf2 Hf].
  apply andb_true_iff in Hf as [Hf3 _].
  unfold fromisoformat. cbn [app length Nat.ltb Nat.leb take drop].
  rewrite parse_isoformat_date_ok by done. cbn [rbind].
  pose proof (parse_isoformat_time_ok h1 h2 i1 i2 s1 s2 f1 f2 f3 negative
                a1 a2 b1 b2 Hh1 Hh2 Hi1 Hi2 Hs1 Hs2 Hf1 Hf2 Hf3
                Ha1 Ha2 Hb1 Hb2 ltac:(lia) ltac:(lia)) as Ht.
  cbv zeta in Ht. cbn [app] in Ht. rewrite Ht. cbn [rbind].
  rewrite Iy, Im, Id, Ih, Ii, Is, Ia, Ib, Hvd.
  pose proof (int_of_digits3_bound f1 f2 f3 Hf1 Hf2 Hf3).
  rewrite (proj2 (valid_time_bounds h mi s (int_of_digits [f1; f2; f3] * 1000)))
    by lia.
  reflexivity.
Qed.

(** ** The client *)

Section Facts.
Context `{Outside}.

Implicit Types (st : state) (params : gmap string string).

(** After an answer with status 200 and a body, [login] goes on with the
    body. *)
Lemma login_on_200 email password st url j :
  email <> "" ->
  AUTH_URL (self st) = Some url ->
  status_code (server (sent st) (POST url (login_form email password)))
  = 200 ->
  body (server (sent st) (POST url (login_form email password))) = Some j ->
  login email password st
  = bind (lift (subscript j "access_token")) (fun tok =>
      bind (assign (set_token tok)) (fun _ =>
        bind (lift (subscript j "user")) (fun u =>
          bind (lift (subscript u "id")) (fun uid =>
            assign (set_user_id uid)))))
      (sending st (POST url (login_form email password))).
Proof.
  intros Hne Hurl Hst Hb. destruct email as [|c email]; [done|].
  unfold login. cbn [String.length Nat.eqb].
  erewrite step_ok by (by apply attr_ok).
  erewrite step_ok by reflexivity.
  rewrite Hst. cbn [Z.eqb Pos.eqb negb].
  erewrite step_ok; [reflexivity|].
  unfold lift, json_of. by rewrite Hb.
Qed.

(** X6. A granted login: when the answer to the login request has
    status 200 and a body that holds an access token and a user with an
    id, [login] sends this one request, stores the token and the id, and
    leaves every other attribute of the object as it was. *)
Theorem login_granted email password st url j tok u uid :
  email <> "" ->
  AUTH_URL (self st) = Some url ->
  status_code (server (sent st) (POST url (login_form email password)))
  = 200 ->
  body (server (sent st) (POST url (login_form email password))) = Some j ->
  subscript j "access_token" = Ok tok ->
  subscript j "user" = Ok u ->
  subscript u "id" = Ok uid ->
  login email password st
  = (Ok tt,
     State (set_user_id uid (set_token tok (self st)))
       (sent st ++ [POST url (login_form email password)])
       (clock_reads st)).
Proof.
  intros Hne Hurl Hst Hb Htok Hu Hid.
  rewrite (login_on_200 email password st url j) by done.
  unfold bind, lift, assign, sending. by rewrite Htok, Hu, Hid.
Qed.

(** X7. A login that fails after the token: when the body of a 200
    answer holds an access token but the user id cannot be read from it,
    [login] raises the error of that reading with the new token already
    stored and the user id still the old one. *)
Theorem login_stores_token_before_user_id email password st url j tok e :
  email <> "" ->
  AUTH_URL (self st) = Some url ->
  status_code (server (sent st) (POST url (login_form email password)))
  = 200 ->
  body (server (sent st) (POST url (login_form email password))) = Some j ->
  subscript j "access_token" = Ok tok ->
  rbind (subscript j "user") (fun u => subscript u "id") = Raise e ->
  login email password st
  = (Raise e,
     State (set_token tok (self st))
       (sent st ++ [POST url (login_form email password)])
       (clock_reads st))
  /\ user_id (set_token tok (self st)) = user_id (self st).
Proof.
  intros Hne Hurl Hst Hb Htok He. split; [|done].
  rewrite (login_on_200 email password st url j) by done.
  unfold bind, lift, assign, sending. rewrite Htok. cbn [self sent clock_reads].
  destruct (subscript j "user") as [u|e']; cbn [rbind] in He.
  - by rewrite He.
  - by injection He as ->.
Qed.

(** What [login] leaves alone. *)
Lemma login_leaves email password st :
  let st' := (login email password st).2 in
  BASE_URL (self st') = BASE_URL (self st)
  /\ AUTH_URL (self st') = AUTH_URL (self st)
  /\ header (self st') = header (self st)
  /\ CYCLES_URL (self st') = CYCLES_URL (self st)
  /\ HEART_RATE_URL (self st') = HEART_RATE_URL (self st)
  /\ HEALTH_METRICS_URL (self st') = HEALTH_METRICS_URL (self st)
  /\ SEED (self st') = SEED (self st)
  /\ clock_reads st' = clock_reads st
  /\ (sent st' = sent st
      \/ exists url, AUTH_URL (self st) = Some url
                     /\ sent st'
                        = sent st ++ [POST url (login_form email password)]).
Proof.
  cbv zeta. destruct email as [|c email].
  { conjs; try done. by left. }
  unfold login. cbn [String.length Nat.eqb].
  unfold bind, attr, send, raise, lift, assign, json_of, subscript, getitem.
  destruct (AUTH_URL (self st)) as [url|] eqn:Hurl; [|conjs; try done; by left].
  cbn [self sent clock_reads].
  destruct (negb _); [conjs; try done; right; by exists url|].
  destruct (body _) as [j|]; [|conjs; try done; right; by exists url].
  destruct j; try (conjs; try done; right; by exists url).
  destruct (fields !! "access_token");
    [|conjs; try done; right; by exists url].
  cbn [self sent clock_reads].
  destruct (fields !! "user") as [u|];
    [|conjs; try done; right; by exists url].
  destruct u; try (conjs; try done; right; by exists url).
  destruct (fields0 !! "id"); conjs; try done; right; by exists url.
Qed.

(** X8. Whatever its outcome, [login] changes nothing of the object but
    the token and the user id: the header and the URLs built by the
    constructor from an earlier token and user id stay as they are.  It
    reads no clock, and it sends nothing or its one request to the
    authentication URL. *)
Theorem login_frame email password st :
  let st' := (login email password st).2 in
  BASE_URL (self st') = BASE_URL (self st)
  /\ AUTH_URL (self st') = AUTH_URL (self st)
  /\ header (self st') = header (self st)
  /\ CYCLES_URL (self st') = CYCLES_URL (self st)
  /\ HEART_RATE_URL (self st') = HEART_RATE_URL (self st)
  /\ HEALTH_METRICS_URL (self st') = HEALTH_METRICS_URL (self st)
  /\ SEED (self st') = SEED (self st)
  /\ clock_reads st' = clock_reads st
  /\ (sent st' = sent st
      \/ exists url, AUTH_URL (self st) = Some url
                     /\ sent st'
                        = sent st ++ [POST url (login_form email password)]).
Proof. apply login_leaves. Qed.

(** X18. A query after a new login still goes out as before it: whatever
    the login did, the token and the user id it may have stored among it,
    [get_heart_rate_json] sends its query to the heart-rate URL and with
    the header that the object held before the login. *)
Theorem get_heart_rate_json_after_login email password params st hr h :
  HEART_RATE_URL (self st) = Some hr ->
  header (self st) = Some h ->
  let st' := (login email password st).2 in
  get_heart_rate_json params st'
  = (json_of (server (sent st') (GET hr (Some params) h)),
     sending st' (GET hr (Some params) h)).
Proof.
  intros Hhr Hh st'.
  destruct (login_leaves email password st)
    as (_ & _ & Eh & _ & Ehr & _).
  fold st' in Eh, Ehr.
  unfold get_heart_rate_json, bind, attr, send, lift.
  rewrite Ehr, Hhr, Eh, Hh. by destruct (json_of _).
Qed.

(** A login that returns has stored a token and a user id. *)
Lemma login_ok_sets email password st st' :
  login email password st = (Ok tt, st') ->
  exists tok uid,
    token (self st') = Some tok /\ user_id (self st') = Some uid
    /\ (email = "" -> tok = JStr "" /\ uid = JStr "" /\ sent st' = sent st).
Proof.
  destruct email as [|c email].
  { intros [= <-]. by exists (JStr ""), (JStr ""). }
  unfold login. cbn [String.length Nat.eqb].
  unfold bind, attr, send, raise, lift, assign, json_of, subscript, getitem.
  destruct (AUTH_URL (self st)); [|done].
  destruct (negb _); [done|].
  destruct (body _) as [j|]; [|done].
  destruct j; try done.
  destruct (fields !! "access_token") as [tok|]; [|done].
  destruct (fields !! "user") as [u|]; [|done].
  destruct u; try done.
  destruct (fields0 !! "id") as [uid|]; [|done].
  intros [= <-]. by exists tok, uid.
Qed.

(** X19. Whenever the constructor returns, the object it has built is
    consistent with the token and the user id it holds: the header is
    [bearer] followed by that token, the URLs carry that user id, and
    every other attribute has its fixed value; no clock was read.  With an
    empty email the token and the user id are the empty string, whatever
    the password, and nothing was sent. *)
Theorem init_builds_consistent_object email password st st' :
  init email password st = (Ok tt, st') ->
  exists tok uid,
    self st' = logged_in tok uid
    /\ clock_reads st' = clock_reads st
    /\ (email = "" -> tok = JStr "" /\ uid = JStr "" /\ sent st' = sent st).
Proof.
  unfold init.
  erewrite step_ok by reflexivity.
  erewrite step_ok by reflexivity.
  erewrite step_ok by reflexivity.
  match goal with
  | |- context [bind (login email password) _ ?s] => set (st3 := s)
  end.
  destruct (login email password st3) as [[[]|e] st4] eqn:El; last first.
  { erewrite step_raise by exact El. discriminate. }
  erewrite step_ok by exact El.
  destruct (login_ok_sets _ _ _ _ El) as (tok & uid & Ht & Hu & Hempty).
  pose proof (login_leaves email password st3) as Hfr.
  cbv zeta in Hfr. rewrite El in Hfr. cbn [snd] in Hfr.
  destruct Hfr as (Eb & Ea & _ & _ & _ & _ & _ & Ec & _).
  subst st3. cbn [self sent clock_reads BASE_URL AUTH_URL set_AUTH_URL
                  set_BASE_URL] in Eb, Ea, Ec, Hempty.
  destruct st4 as [[b a t u h c hr hm sd] snt rd].
  cbn [self sent clock_reads BASE_URL AUTH_URL token user_id] in *.
  subst b a t u rd.
  intros [= <-]. exists tok, uid. done.
Qed.

(** X9. The constructor on a granted login: it sends the login request
    to the authentication URL of the vendor and builds the object whose
    header carries the token and whose heart-rate URL carries the user id;
    every attribute is set afresh, so the object does not depend on what
    was there before. *)
Theorem init_granted email password st j tok u uid :
  email <> "" ->
  status_code (server (sent st) (login_request email password)) = 200 ->
  body (server (sent st) (login_request email password)) = Some j ->
  subscript j "access_token" = Ok tok ->
  subscript j "user" = Ok u ->
  subscript u "id" = Ok uid ->
  init email password st
  = (Ok tt,
     State (logged_in tok uid) (sent st ++ [login_request email password])
       (clock_reads st)).
Proof.
  intros Hne Hst Hb Htok Hu Hid. unfold init.
  erewrite step_ok by reflexivity.
  erewrite step_ok by reflexivity.
  erewrite step_ok by reflexivity.
  erewrite step_ok; last first.
  { rewrite (login_on_200 email password _
               [Lit "https://api-7.whoop.com/"; Lit "oauth/token"] j)
      by done.
    unfold bind, lift, assign, sending. rewrite Htok, Hu, Hid. reflexivity. }
  reflexivity.
Qed.

(** The split, once both bounds are read. *)
Lemma split_into_weeklong_params_ok params st start end0 :
  parse_bound params "end" = Ok end0 ->
  parse_bound params "start" = Ok start ->
  let late := clock (clock_reads st) <? end0 in
  let end_ := if late then clock (S (clock_reads st)) else end0 in
  split_into_weeklong_params params st
  = (segments start (range (ceil_div7 (sub_days end_ start))),
     State (self st) (sent st)
       (if late then S (S (clock_reads st)) else S (clock_reads st))).
Proof.
  intros Hend Hstart late end_.
  unfold split_into_weeklong_params, bind, lift, now.
  rewrite Hend, Hstart. fold late. subst end_.
  destruct late; unfold now, ret; cbn; by destruct (segments _ _).
Qed.

(** X10. A request that spans less than a whole day (or ends before it
    starts) yields an empty frame: no window is made of it, no request is
    sent, and the heart-rate URL and the header are not even read. *)
Theorem get_heart_rate_df_short_window params timezone verbose st
    start end0 :
  parse_bound params "end" = Ok end0 ->
  parse_bound params "start" = Ok start ->
  let late := clock (clock_reads st) <? end0 in
  let end_ := if late then clock (S (clock_reads st)) else end0 in
  end_ - start < US_PER_DAY ->
  get_heart_rate_df params timezone verbose st
  = (Ok [],
     State (self st) (sent st)
       (if late then S (S (clock_reads st)) else S (clock_reads st))).
Proof.
  intros Hend Hstart late end_ Hshort.
  assert (sub_days end_ start <= 0) as Hd.
  { unfold sub_days.
    assert (0 < US_PER_DAY) by (unfold US_PER_DAY, US_PER_SECOND; lia).
    apply Z.lt_succ_r. apply Z.div_lt_upper_bound; lia. }
  pose proof (ceil_div7_spec (sub_days end_ start)) as Hc.
  pose proof (split_into_weeklong_params_ok params st start end0 Hend Hstart)
    as Hsplit.
  cbv zeta in Hsplit. fold late in Hsplit. fold end_ in Hsplit.
  unfold range in Hsplit.
  replace (Z.to_nat (ceil_div7 (sub_days end_ start))) with 0%nat in Hsplit
    by lia.
  unfold get_heart_rate_df.
  erewrite step_ok by exact Hsplit.
  reflexivity.
Qed.

(** X11. [get_heart_rate_df] reads the end of the request before its
    start, and both before the clock: an error in reading the end (the
    missing key among them) is raised even when the start is in error as
    well, an error in reading the start comes next, and in both cases
    nothing has happened: no clock reading, no request. *)
Theorem get_heart_rate_df_reads_end_first params timezone verbose st :
  (forall e,
     parse_bound params "end" = Raise e ->
     get_heart_rate_df params timezone verbose st = (Raise e, st))
  /\ (forall end0 e,
        parse_bound params "end" = Ok end0 ->
        parse_bound params "start" = Raise e ->
        get_heart_rate_df params timezone verbose st = (Raise e, st))
  /\ (params !! "end" = None ->
      get_heart_rate_df params timezone verbose st
      = (Raise (KeyError "end"), st)).
Proof.
  unfold get_heart_rate_df, split_into_weeklong_params, bind, lift.
  conjs.
  - by intros e ->.
  - by intros end0 e -> ->.
  - intros Hn. unfold parse_bound, getitem. by rewrite Hn.
Qed.

(** The text of two strings put together. *)
Lemma of_string_app (a b : string) :
  of_string (a ++ b)%string = of_string a ++ of_string b.
Proof.
  unfold of_string. induction a as [|c a IH]; [done|].
  change (c :: list_ascii_of_string (a ++ b)%string
          = c :: (list_ascii_of_string a ++ list_ascii_of_string b)).
  by rewrite IH.
Qed.

Lemma before_first_app sep (a b : text) :
  before_first sep (a ++ sep :: b) = before_first sep a.
Proof.
  induction a as [|c a IH]; cbn.
  - by rewrite Ascii.eqb_refl.
  - destruct (Ascii.eqb c sep); [done|]. by rewrite IH.
Qed.

(** X12. Of a bound of the request, only the text before its first point
    is read: the fraction of the second and the zone letter that follow
    the point are dropped unread, so two bounds that differ after the
    point only are the same bound. *)
Theorem parse_bound_drops_fraction params params' key (a b b' : string) :
  parse_bound (<[key := (a ++ "." ++ b)%string]> params) key
  = parse_bound (<[key := (a ++ "." ++ b')%string]> params') key.
Proof.
  unfold parse_bound, getitem. rewrite !lookup_insert_eq. cbn [rbind].
  rewrite !of_string_app. cbn [of_string list_ascii_of_string app].
  by rewrite !before_first_app.
Qed.

(** X13. The rows of the heart-rate frame are the ticks, one row per
    tick and in the order of the ticks: a row holds the [data] field of
    its tick as the heart rate and the converted [time] field as the
    timestamp; the frame is built exactly when every tick has both fields
    and a time that converts. *)
Theorem tick_rows_one_row_per_tick timezone (data : list json)
    (rows : list (hr_row timestamp)) :
  tick_rows timezone data = Ok rows
  <-> Forall2 (row_of_tick timezone) data rows.
Proof.
  revert rows. induction data as [|tick data IH]; intros rows; cbn.
  - split.
    + intros [= <-]. constructor.
    + intros Hf. by inversion Hf.
  - unfold tick_row. split.
    + destruct (subscript tick "data") as [hr|] eqn:Ehr; [cbn|done].
      destruct (subscript tick "time") as [t|] eqn:Et; [cbn|done].
      destruct (tick_time_to_local_timezone timezone t) as [ts|] eqn:Ets;
        [cbn|done].
      destruct (tick_rows timezone data) as [rs|]; [cbn|done].
      intros [= <-]. constructor; [|by apply IH].
      split; [done|]. by exists t.
    + intros Hf. inversion Hf as [|? row ? rs [Ehr (t & Et & Ets)] Hrest];
        subst.
      rewrite Ehr. cbn. rewrite Et. cbn. rewrite Ets. cbn.
      apply IH in Hrest. rewrite Hrest. cbn. by destruct row.
Qed.


(** A printed bound is read back. *)
Lemma parse_bound_printed (a b : datetime) key t :
  window_params a b !! key
  = Some (string_of_list_ascii (strftime_iso_000Z t)) ->
  printable t ->
  parse_bound (window_params a b) key = Ok t.
Proof.
  intros Hk [[Hlo Hhi] Hsec]. unfold parse_bound, getitem. rewrite Hk.
  cbn [rbind]. unfold of_string. rewrite list_ascii_of_string_of_list_ascii.
  apply strptime_reads_strftime; [|done].
  assert (0 <= (ymd2ord 1000 1 1 - 1) * US_PER_DAY) by done. lia.
Qed.

Lemma window_bounds_read_back_parts (a b : datetime) :
  printable a -> printable b ->
  parse_bound (window_params a b) "start" = Ok a
  /\ parse_bound (window_params a b) "end" = Ok b.
Proof.
  intros Ha Hb. split; by apply parse_bound_printed.
Qed.

(** X15. The two formats of the windows are inverse to each other: the
    bounds that [split_into_weeklong_params] prints into a window are read
    back, by its own reading of a request, as the datetimes they were
    printed from (whole seconds, from the year 1000 on). *)
Theorem window_bounds_read_back (a b : datetime) :
  printable a -> printable b ->
  parse_bound (window_params a b) "start" = Ok a
  /\ parse_bound (window_params a b) "end" = Ok b.
Proof.
  intros Ha Hb. by apply window_bounds_read_back_parts.
Qed.

(** X16. A request that spans a whole number of weeks and ends in the
    past is split into exactly these weeks: the windows begin at its start,
    each begins where the one before ends, and the last one ends at its
    end; the clock is read once.  In particular a window that the split
    has emitted is split into itself. *)
Theorem whole_weeks_split_exactly (a : datetime) k st :
  printable a -> 0 <= k ->
  a + 7 * k * US_PER_DAY < datetime_max ->
  (clock (clock_reads st) <? a + 7 * k * US_PER_DAY) = false ->
  let windows := map (week a) (range k) in
  split_into_weeklong_params (window_params a (a + 7 * k * US_PER_DAY)) st
  = (Ok (map (fun w => window_params w.1 w.2) windows),
     State (self st) (sent st) (S (clock_reads st)))
  /\ chained a windows (a + 7 * k * US_PER_DAY)
  /\ (k = 1 ->
      map (fun w => window_params w.1 w.2) windows
      = [window_params a (a + 7 * k * US_PER_DAY)]).
Proof.
  intros Ha Hk Hmax Hpast windows.
  assert (0 < US_PER_DAY) as HD by done.
  assert (printable (a + 7 * k * US_PER_DAY)) as Hb.
  { destruct Ha as [[Hlo Hhi] Hsec]. split; [nia|].
    unfold US_PER_DAY. rewrite Z.mul_assoc, Z.mod_add by done. exact Hsec. }
  destruct (window_bounds_read_back_parts a (a + 7 * k * US_PER_DAY) Ha Hb)
    as [Hstart Hend].
  assert (0 <= a) as H0.
  { destruct Ha as [[Hlo _] _].
    assert (0 <= (ymd2ord 1000 1 1 - 1) * US_PER_DAY) by done. lia. }
  conjs.
  - rewrite (split_into_weeklong_params_ok _ st a (a + 7 * k * US_PER_DAY))
      by done.
    rewrite Hpast.
    assert (sub_days (a + 7 * k * US_PER_DAY) a = 7 * k) as ->.
    { unfold sub_days.
      replace (a + 7 * k * US_PER_DAY - a) with (7 * k * US_PER_DAY) by lia.
      by apply Z.div_mul. }
    assert (ceil_div7 (7 * k) = k) as ->.
    { unfold ceil_div7. Z.div_mod_to_equations. lia. }
    subst windows. unfold range.
    rewrite segments_ok; [done|done|].
    rewrite Nat.add_0_l, Z2Nat.id by done. exact Hmax.
  - subst windows. unfold range.
    pose proof (chained_weeks a 0 (Z.to_nat k)) as Hc.
    replace (a + 7 * Z.of_nat 0 * US_PER_DAY) with a in Hc by lia.
    replace (Z.of_nat (0 + Z.to_nat k)) with k in Hc by lia.
    exact Hc.
  - intros ->. subst windows. change (range 1) with [0]. cbn [map].
    unfold week. cbn [fst snd].
    replace (a + 7 * 0 * US_PER_DAY) with a by lia.
    by replace (7 * (0 + 1)) with (7 * 1) by lia.
Qed.

End Facts.

Section Examples.

Lemma login_granted_witness :
  @login (answering granted) "user@example.org" "secret"
    (State faked_user [] 0)
  = (Ok tt,
     State (set_user_id (JInt 42) (set_token (JStr "t0") faked_user))
       [login_request "user@example.org" "secret"] 0).
Proof.
  refine (@login_granted (answering granted) "user@example.org" "secret"
            (State faked_user [] 0) _ _ (JStr "t0")
            (JObj (<["id" := JInt 42]> ∅)) (JInt 42)
            _ eq_refl eq_refl eq_refl eq_refl eq_refl eq_refl).
  discriminate.
Defined.

Lemma login_stores_token_before_user_id_witness :
  @login (answering token_only) "user@example.org" "secret"
    (State faked_user [] 0)
  = (Raise (KeyError "user"),
     State (set_token (JStr "t0") faked_user)
       [login_request "user@example.org" "secret"] 0)
  /\ user_id (set_token (JStr "t0") faked_user) = Some (JStr "").
Proof.
  refine (@login_stores_token_before_user_id (answering token_only)
            "user@example.org" "secret" (State faked_user [] 0) _ _
            (JStr "t0") (KeyError "user")
            _ eq_refl eq_refl eq_refl eq_refl eq_refl).
  discriminate.
Defined.

Lemma init_granted_witness :
  @init (answering granted) "user@example.org" "secret" (State blank [] 0)
  = (Ok tt,
     State (logged_in (JStr "t0") (JInt 42))
       [login_request "user@example.org" "secret"] 0).
Proof.
  refine (@init_granted (answering granted) "user@example.org" "secret"
            (State blank [] 0) _ (JStr "t0")
            (JObj (<["id" := JInt 42]> ∅)) (JInt 42)
            _ eq_refl eq_refl eq_refl eq_refl eq_refl).
  discriminate.
Defined.

Lemma get_heart_rate_df_short_window_witness :
  @get_heart_rate_df demo_outside short_day "UTC" false
    (State faked_user [] 0)
  = (Ok [], State faked_user [] 1).
Proof.
  refine (@get_heart_rate_df_short_window demo_outside short_day "UTC" false
            (State faked_user [] 0)
            (FitbitRuns.midnight 2022 4 24)
            (FitbitRuns.midnight 2022 4 24 + 86399 * US_PER_SECOND)
            eq_refl eq_refl _).
  reflexivity.
Defined.

Lemma get_heart_rate_df_reads_end_first_witness :
  @get_heart_rate_df demo_outside ∅ "UTC" false (State faked_user [] 0)
  = (Raise (KeyError "end"), State faked_user [] 0).
Proof.
  exact (proj2 (proj2 (@get_heart_rate_df_reads_end_first demo_outside ∅
                         "UTC" false (State faked_user [] 0)))
           eq_refl).
Defined.

Lemma tick_rows_one_row_per_tick_witness :
  Forall2 (@row_of_tick counting_outside "UTC")
    [JObj (<["data" := JInt 61]> (<["time" := JInt 0]> ∅))]
    [HrRow (JInt 61) (JInt 0)].
Proof.
  apply (proj1 (@tick_rows_one_row_per_tick counting_outside "UTC"
                  [JObj (<["data" := JInt 61]> (<["time" := JInt 0]> ∅))]
                  [HrRow (JInt 61) (JInt 0)])).
  reflexivity.
Defined.


Lemma window_bounds_read_back_witness :
  let a := FitbitRuns.midnight 2022 4 1 in
  let b := FitbitRuns.midnight 2022 4 8 in
  parse_bound (window_params a b) "start" = Ok a
  /\ parse_bound (window_params a b) "end" = Ok b.
Proof.
  cbv zeta. apply window_bounds_read_back;
    (split; [split; [vm_compute; discriminate|reflexivity]|reflexivity]).
Defined.

Lemma whole_weeks_split_exactly_witness :
  let a := FitbitRuns.midnight 2022 4 1 in
  let windows := map (week a) (range 1) in
  @split_into_weeklong_params demo_outside
    (window_params a (a + 7 * 1 * US_PER_DAY)) (State faked_user [] 0)
  = (Ok (map (fun w => window_params w.1 w.2) windows),
     State faked_user [] 1)
  /\ chained a windows (a + 7 * 1 * US_PER_DAY)
  /\ (1 = 1 ->
      map (fun w => window_params w.1 w.2) windows
      = [window_params a (a + 7 * 1 * US_PER_DAY)]).
Proof.
  cbv zeta.
  refine (@whole_weeks_split_exactly demo_outside
            (FitbitRuns.midnight 2022 4 1) 1 (State faked_user [] 0)
            _ _ _ _).
  - split; [split; [vm_compute; discriminate|reflexivity]|reflexivity].
  - lia.
  - reflexivity.
  - reflexivity.
Defined.

Lemma convert_whoop_str_to_datetime_full_fraction_witness :
  convert_whoop_str_to_datetime (of_string "2022-04-24T05:10:23.125+00:00")
    (of_string "+0530")
  = Ok (IsoDatetime 2022 4 24 5 10 23 125000 (Some 19800000000)).
Proof.
  exact (proj2 (convert_whoop_str_to_datetime_full_fraction 2022 4 24 5 10 23
                  ["1"; "2"; "5"]%char (of_string "00:00") false 5 30
                  eq_refl eq_refl eq_refl eq_refl eq_refl
                  ltac:(lia) ltac:(lia))).
Defined.

Lemma get_heart_rate_json_after_login_witness :
  let st' := (@login (answering granted) "user@example.org" "secret"
                (State faked_user [] 0)).2 in
  let hr := [Lit "https://api-7.whoop.com/"; Lit "users/"; Fmt (JStr "");
             Lit "/metrics/heart_rate"] in
  let h := <["Authorization" := [Lit "bearer "; Fmt (JStr "")]]> ∅ in
  user_id (self st') = Some (JInt 42)
  /\ token (self st') = Some (JStr "t0")
  /\ @get_heart_rate_json (answering granted) default_params_hr st'
     = (json_of (@server (answering granted) (sent st')
                   (GET hr (Some default_params_hr) h)),
        @sending (answering granted) st'
          (GET hr (Some default_params_hr) h)).
Proof.
  cbv zeta. conjs; [reflexivity..|].
  exact (@get_heart_rate_json_after_login (answering granted)
           "user@example.org" "secret" default_params_hr
           (State faked_user [] 0) _ _ eq_refl eq_refl).
Defined.

Lemma init_builds_consistent_object_witness :
  exists tok uid,
    faked_user = logged_in tok uid
    /\ 0%nat = 0%nat
    /\ ("" = "" -> tok = JStr "" /\ uid = JStr "" /\ @nil request = []).
Proof.
  exact (@init_builds_consistent_object demo_outside "" "secret"
           (State blank [] 0) (State faked_user [] 0) eq_refl).
Defined.

End Examples.

End WhoopMore.
